(** * Coagent agents: confirm/submit gating, error wrapping, delegation and
      sequential composition

    A shallow embedding of [coagent/agents/util.py],
    [coagent/agents/chat_agent.py] and [coagent/agents/sequential.py].

    Python values are a small inductive universe, dictionaries are
    insertion-ordered association lists, and coroutines are computations in a
    state-and-exception monad over an explicit [World] (the logger, the
    channel's outbox and whatever the tools themselves record). *)

From Stdlib Require Import Strings.String Strings.Ascii Lists.List Bool.Bool
  Numbers.DecimalString
  Arith.PeanoNat ZArith.ZArith Lia.
Import ListNotations.
Set Warnings "-register-all".
Open Scope list_scope.
Open Scope string_scope.

(* ================================================================= *)
(** ** Python values *)

Module Py.

(** Strings are sequences of code points below 256. *)
Definition nl : string := String "010"%char EmptyString.
Definition dq : string := String "034"%char EmptyString.
Definition sq : string := String "039"%char EmptyString.
Definition bq3 : string := "```".

(** [str.lower] on code points below 256: the ASCII capitals and the
    Latin-1 capitals U+00C0..U+00DE (the multiplication sign apart) move
    down by 32. *)
Definition lower_char (c : ascii) : ascii :=
  let n := nat_of_ascii c in
  if ((65 <=? n) && (n <=? 90))%nat then ascii_of_nat (n + 32)
  else if ((192 <=? n) && (n <=? 222) && negb (n =? 215))%nat
       then ascii_of_nat (n + 32)
  else c.

Fixpoint lower (s : string) : string :=
  match s with
  | EmptyString => EmptyString
  | String c r => String (lower_char c) (lower r)
  end.

(** [str.isspace] on one code point below 256. *)
Definition isspace (c : ascii) : bool :=
  let n := nat_of_ascii c in
  (((9 <=? n) && (n <=? 13)) || ((28 <=? n) && (n <=? 32))
   || (n =? 133) || (n =? 160))%nat.

Fixpoint lstrip (s : string) : string :=
  match s with
  | EmptyString => EmptyString
  | String c r => if isspace c then lstrip r else s
  end.

Definition reverse (s : string) : string :=
  string_of_list_ascii (rev (list_ascii_of_string s)).

Definition rstrip (s : string) : string := reverse (lstrip (reverse s)).

(** [str.strip()] with no argument. *)
Definition strip (s : string) : string := rstrip (lstrip s).

(** [x in (a, b, c)] for strings. *)
Definition str_in (x : string) (xs : list string) : bool :=
  existsb (String.eqb x) xs.

(** The values that travel as keyword arguments and as [extensions]. *)
Inductive pyval : Type :=
| PyNone
| PyBool (b : bool)
| PyInt (n : Z)
| PyStr (s : string)
| PyDict (items : list (string * pyval)).

(** A [dict] with string keys, in insertion order. *)
Definition dict : Type := list (string * pyval).

(** Truth value testing. *)
Definition truthy (v : pyval) : bool :=
  match v with
  | PyNone => false
  | PyBool b => b
  | PyInt n => negb (n =? 0)%Z
  | PyStr s => negb (String.eqb s EmptyString)
  | PyDict items => match items with [] => false | _ :: _ => true end
  end.

(** [d.get(k)], as an option. *)
Fixpoint dict_lookup (k : string) (d : dict) : option pyval :=
  match d with
  | [] => None
  | (k', v) :: r => if String.eqb k k' then Some v else dict_lookup k r
  end.

(** [d.get(k, default)]. *)
Definition dict_get (k : string) (default : pyval) (d : dict) : pyval :=
  match dict_lookup k d with
  | Some v => v
  | None => default
  end.

(** [k in d]. *)
Definition dict_has (k : string) (d : dict) : bool :=
  match dict_lookup k d with
  | Some _ => true
  | None => false
  end.

(** [d[k] = v]: an existing key keeps its place, a new one goes last. *)
Fixpoint dict_set (k : string) (v : pyval) (d : dict) : dict :=
  match d with
  | [] => [(k, v)]
  | (k', v') :: r =>
      if String.eqb k k' then (k', v) :: r else (k', v') :: dict_set k v r
  end.

(** [{k: v for k, v in d.items() if k != x}]. *)
Definition dict_without (x : string) (d : dict) : dict :=
  filter (fun kv => negb (String.eqb (fst kv) x)) d.

(** A raised object: its class, what [str(exc)] renders, and whether the
    class derives from [Exception], which is what [except Exception]
    tests.  [asyncio.CancelledError], [KeyboardInterrupt] and [SystemExit]
    derive from [BaseException] only. *)
Record Exn : Type := mkBaseException {
  exc_class : string;
  exc_text : string;
  is_exception : bool
}.

(** An instance of a class that derives from [Exception]. *)
Definition mkExn (class text : string) : Exn :=
  mkBaseException class text true.

Definition CancelledError : Exn :=
  mkBaseException "CancelledError" EmptyString false.
Definition KeyboardInterrupt : Exn :=
  mkBaseException "KeyboardInterrupt" EmptyString false.
Definition SystemExit (text : string) : Exn :=
  mkBaseException "SystemExit" text false.

Definition ValueError (m : string) : Exn := mkExn "ValueError" m.
Definition TypeError (m : string) : Exn := mkExn "TypeError" m.
Definition KeyError (m : string) : Exn := mkExn "KeyError" m.
Definition IndexError (m : string) : Exn := mkExn "IndexError" m.

(** [repr] of a string that is a Python identifier (a parameter name):
    the name between single quotes. *)
Definition repr_name (name : string) : string := sq ++ name ++ sq.

Inductive Outcome (A : Type) : Type :=
| Ok (a : A)
| Raised (e : Exn).
Arguments Ok {A} a.
Arguments Raised {A} e.

(** [dict(x)] on the value universe: a mapping is copied, the rest is
    refused the way CPython refuses it. *)
Definition dict_of (x : pyval) : Outcome dict :=
  match x with
  | PyDict items => Ok items
  | PyNone => Raised (TypeError "'NoneType' object is not iterable")
  | PyBool _ => Raised (TypeError "'bool' object is not iterable")
  | PyInt _ => Raised (TypeError "'int' object is not iterable")
  | PyStr s =>
      match s with
      | EmptyString => Ok []
      | String _ _ =>
          Raised (ValueError
            "dictionary update sequence element #0 has length 1; 2 is required")
      end
  end.

(** [x[k]] for a string key. *)
Definition getitem (x : pyval) (k : string) : Outcome pyval :=
  match x with
  | PyDict items =>
      match dict_lookup k items with
      | Some v => Ok v
      | None => Raised (KeyError (repr_name k))
      end
  | PyStr _ => Raised (TypeError "string indices must be integers, not 'str'")
  | PyNone => Raised (TypeError "'NoneType' object is not subscriptable")
  | PyBool _ => Raised (TypeError "'bool' object is not subscriptable")
  | PyInt _ => Raised (TypeError "'int' object is not subscriptable")
  end.

(** The two library calls the guards make on strings: [str.format] with
    keyword arguments only, and [json.dumps(x, ensure_ascii=False,
    indent=2)]. *)
Class Runtime : Type := {
  str_format : string -> dict -> Outcome string;
  json_dumps : pyval -> Outcome string
}.

End Py.
Export Py.

(* ================================================================= *)
(** ** Messages and addresses *)

Module Messages.

(** Modelled from the spec: [coagent.core.Address] is not among the
    sources; section 3 gives it an agent type name and an instance id. *)
Record Address : Type := mkAddress { name : string; id : string }.

(** Modelled from the spec: [ChatMessage] of [coagent/agents/messages.py]
    (not among the sources), with the fields section 3 lists.  An unset
    [type] or [sender] is the empty string, an unset [to_user] is
    [false]. *)
Record ChatMessage : Type := mkChatMessage {
  role : string;
  content : string;
  type : string;
  sender : string;
  to_user : bool
}.

(** Modelled from the spec: [ChatHistory], the ordered messages, the
    reply address and the [extensions] mapping. *)
Record ChatHistory : Type := mkChatHistory {
  messages : list ChatMessage;
  reply : option Address;
  extensions : dict
}.

(** Modelled from the spec: [GenericMessage], an opaque payload and the
    reply address. *)
Record GenericMessage : Type := mkGenericMessage {
  raw : string;
  g_reply : option Address
}.

(** What [encode()] hands to the channel.  The wire format belongs to
    [coagent.core]; here an encoded message is the message itself, tagged
    with its kind. *)
Inductive Envelope : Type :=
| EncChatMessage (m : ChatMessage)
| EncChatHistory (h : ChatHistory)
| EncGenericMessage (m : GenericMessage)
| EncSetReplyAgent (address : Address).

(** [ChatMessage.decode(chunk)]: anything that is not an encoded chat
    message fails validation. *)
Definition ChatMessage_decode (chunk : Envelope) : Outcome ChatMessage :=
  match chunk with
  | EncChatMessage m => Ok m
  | _ => Raised (mkExn "ValidationError" "validation error for ChatMessage")
  end.

Definition set_sender (m : ChatMessage) (s : string) : ChatMessage :=
  mkChatMessage (role m) (content m) (type m) s (to_user m).

Definition set_extensions (h : ChatHistory) (e : dict) : ChatHistory :=
  mkChatHistory (messages h) (reply h) e.

Definition set_reply (m : GenericMessage) (r : option Address)
  : GenericMessage :=
  mkGenericMessage (raw m) r.

(** [xs[-1]] and [xs[-2]] on a list, as options. *)
Definition last_opt {A : Type} (xs : list A) : option A :=
  match rev xs with
  | x :: _ => Some x
  | [] => None
  end.

Definition penultimate_opt {A : Type} (xs : list A) : option A :=
  match rev xs with
  | _ :: x :: _ => Some x
  | _ => None
  end.

End Messages.
Export Messages.

(* ================================================================= *)
(** ** Coroutines: state and exceptions *)

Module Eff.

(** One publication on the channel. *)
Record Publication : Type := mkPublication {
  target : Address;
  payload : Envelope;
  stream : bool
}.

(** One recorded tool invocation. *)
Record Invocation : Type := mkInvocation {
  inv_tool : string;
  inv_args : list pyval;
  inv_kwargs : dict
}.

(** The part of the process the code acts on: what [logger.exception]
    has logged, what has been published on the channel, and the
    invocations that tools have recorded. *)
Record World : Type := mkWorld {
  logged : list Exn;
  outbox : list Publication;
  invoked : list Invocation
}.

Definition world0 : World := mkWorld [] [] [].

(** An awaited coroutine: it returns or raises, and leaves a world. *)
Definition M (A : Type) : Type := World -> Outcome A * World.

Definition ret {A : Type} (a : A) : M A := fun w => (Ok a, w).

Definition raise {A : Type} (e : Exn) : M A := fun w => (Raised e, w).

Definition bind {A B : Type} (m : M A) (k : A -> M B) : M B :=
  fun w =>
    match m w with
    | (Ok a, w') => k a w'
    | (Raised e, w') => (Raised e, w')
    end.

(** [try: m except Exception as exc: h(exc)]: what does not derive from
    [Exception] passes through the handler untouched. *)
Definition try_except {A : Type} (m : M A) (h : Exn -> M A) : M A :=
  fun w =>
    match m w with
    | (Ok a, w') => (Ok a, w')
    | (Raised e, w') => if is_exception e then h e w' else (Raised e, w')
    end.

(** A pure step that may raise. *)
Definition lift {A : Type} (o : Outcome A) : M A :=
  match o with
  | Ok a => ret a
  | Raised e => raise e
  end.

(** [logger.exception(exc)]. *)
Definition logger_exception (exc : Exn) : M unit :=
  fun w => (Ok tt, mkWorld (logged w ++ [exc]) (outbox w) (invoked w)).

(** [await channel.publish(addr, payload)]: the publication is recorded;
    delivery is the transport's concern. *)
Definition publish (addr : Address) (p : Envelope) : M unit :=
  fun w =>
    (Ok tt,
     mkWorld (logged w) (outbox w ++ [mkPublication addr p false])
             (invoked w)).

(** [await channel.publish(addr, payload, stream=True)]: the publication
    is recorded and the finite sequence of chunks that the agent at
    [addr] streams back is returned. *)
Definition publish_stream
    (responder : Address -> Envelope -> list Envelope)
    (addr : Address) (p : Envelope) : M (list Envelope) :=
  fun w =>
    (Ok (responder addr p),
     mkWorld (logged w) (outbox w ++ [mkPublication addr p true])
             (invoked w)).

Declare Scope eff_scope.
Delimit Scope eff_scope with eff.
Notation "x <- m ;; k" := (bind m (fun x => k))
  (at level 100, m at next level, right associativity) : eff_scope.
Notation "m ;;; k" := (bind m (fun _ => k))
  (at level 100, right associativity) : eff_scope.

End Eff.
Export Eff.
Open Scope eff_scope.

(* ================================================================= *)
(** ** coagent/agents/util.py *)

Module Util.

(** What the code reads of a completion: [response.choices[i].message]. *)
Record ChoiceMessage : Type := mkChoiceMessage {
  cm_role : string;
  cm_content : string
}.

Record Completion : Type := mkCompletion { choices : list ChoiceMessage }.

(** The completion client.  [acompletion] receives the messages (their
    [model_dump()] carries the same fields) and is any coroutine. *)
Record ModelClient : Type := mkModelClient {
  model : string;
  acompletion : list ChatMessage -> M Completion
}.

(** [chat(messages, client)]. *)
Definition chat (messages : list ChatMessage) (client : ModelClient)
  : M ChatMessage :=
  response <- acompletion client messages ;;
  match choices response with
  | [] => raise (IndexError "list index out of range")
  | msg :: _ =>
      ret (mkChatMessage (cm_role msg) (cm_content msg)
                         EmptyString EmptyString false)
  end.

(** The f-string of [is_user_confirmed]. *)
Definition sentiment_prompt (content : string) : string :=
  "Based on the input, determine whether it's positive or not. Return "
  ++ dq ++ "true" ++ dq ++ " if it's" ++ nl
  ++ "positive or " ++ dq ++ "false" ++ dq
  ++ " if not. You should only return " ++ dq ++ "true" ++ dq ++ " or "
  ++ dq ++ "false." ++ nl ++ nl
  ++ "Input: " ++ content ++ nl
  ++ "Output:".

(** [is_user_confirmed(content, client)].  The debug log line leaves no
    trace in the world. *)
Definition is_user_confirmed (content : string) (client : ModelClient)
  : M bool :=
  if str_in (lower content) ["yes"; "ok"; "1"] then ret true
  else if str_in (lower content) ["no"; "do not"; "0"] then ret false
  else
    reply <- chat [mkChatMessage "user" (sentiment_prompt content)
                                 EmptyString EmptyString false] client ;;
    let answer := Messages.content reply in
    ret (String.eqb (lower (strip answer)) "true").

End Util.
Export Util.

(* ================================================================= *)
(** ** coagent/agents/chat_agent.py *)

Module ChatAgent.

(** *** RunContext *)

(** [RunContext(x)]: the [dict] constructor. *)
Definition RunContext (x : pyval) : Outcome dict := dict_of x.

(** The [user_confirmed] and [user_submitted] properties. *)
Definition user_confirmed (self : dict) : pyval :=
  dict_get "user_confirmed" (PyBool false) self.

Definition set_user_confirmed (self : dict) (value : pyval) : dict :=
  dict_set "user_confirmed" value self.

Definition user_submitted (self : dict) : pyval :=
  dict_get "user_submitted" (PyBool false) self.

Definition set_user_submitted (self : dict) (value : pyval) : dict :=
  dict_set "user_submitted" value self.

(** *** Tools *)

(** What a tool returns: a chat message or any other value. *)
Inductive Result : Type :=
| RVal (v : pyval)
| RMsg (m : ChatMessage).

(** [param.default] of one parameter of [inspect.signature(func)]:
    [inspect.Parameter.empty], an ordinary default, or a [FieldInfo]
    whose own [default] is a value or [PydanticUndefined]. *)
Inductive ParamDefault : Type :=
| Empty
| Plain (v : pyval)
| FieldInfo (default : option pyval).

(** A tool function: its signature, what [function_to_jsonschema(func)]
    gives for it when called, a value or an error (that helper lives in
    [aswarm/util.py], outside the sources), and the function itself,
    called with positional and keyword arguments.  [functools.wraps] makes
    a decorated tool present the signature of the function it wraps. *)
Record Tool : Type := mkTool {
  signature : list (string * ParamDefault);
  jsonschema : Outcome pyval;
  call : list pyval -> dict -> M Result
}.

Definition control_message (content type : string) : ChatMessage :=
  mkChatMessage "assistant" content type EmptyString true.

(** *** confirm *)

Definition confirm {RT : Runtime} (template : string) (func : Tool)
  : Tool :=
  let run (args : list pyval) (kwargs : dict) : M Result :=
    let ctx := dict_get "ctx" PyNone kwargs in
    if truthy ctx then
      match RunContext ctx with
      | Raised e => raise e
      | Ok rc =>
          if negb (truthy (user_confirmed rc)) then
            match str_format template kwargs with
            | Raised e => raise e
            | Ok text => ret (RMsg (control_message text "confirm"))
            end
          else call func args kwargs
      end
    else call func args kwargs
  in
  mkTool (signature func) (jsonschema func) run.

(** *** submit *)

Definition default_submit_template : string :=
  "Please fill in the input form below:" ++ nl ++ nl
  ++ bq3 ++ "schema" ++ nl
  ++ "{schema}" ++ nl
  ++ bq3 ++ nl ++ nl
  ++ bq3 ++ "input" ++ nl
  ++ "{input}" ++ nl
  ++ bq3.

Definition submit {RT : Runtime} (template : string) (func : Tool)
  : Tool :=
  let template :=
    if truthy (PyStr template) then template
    else default_submit_template in
  let run (args : list pyval) (kwargs : dict) : M Result :=
    let ctx := dict_get "ctx" PyNone kwargs in
    if truthy ctx then
      match RunContext ctx with
      | Raised e => raise e
      | Ok rc =>
          if negb (truthy (user_submitted rc)) then
            raw <- lift (jsonschema func) ;;
            schema_fn <- lift (getitem raw "function") ;;
            schema_json <- lift (json_dumps schema_fn) ;;
            let input_ := dict_without "ctx" kwargs in
            input_json <- lift (json_dumps (PyDict input_)) ;;
            text <- lift (str_format template
                            [("schema", PyStr schema_json);
                             ("input", PyStr input_json)]) ;;
            ret (RMsg (control_message text "submit"))
          else call func args kwargs
      end
    else call func args kwargs
  in
  mkTool (signature func) (jsonschema func) run.

(** *** wrap_error *)

(** The loop over [sig.parameters.items()]: a parameter absent from
    [kwargs] whose default is a [FieldInfo] receives that field's
    default, or stops the loop with a [ValueError] when the field has
    none. *)
Fixpoint fill_defaults (params : list (string * ParamDefault))
    (kwargs : dict) : Outcome dict :=
  match params with
  | [] => Ok kwargs
  | (name, FieldInfo default) :: rest =>
      if negb (dict_has name kwargs) then
        match default with
        | None =>
            Raised (ValueError
                      ("Missing required argument " ++ repr_name name))
        | Some d => fill_defaults rest (dict_set name d kwargs)
        end
      else fill_defaults rest kwargs
  | (_, _) :: rest => fill_defaults rest kwargs
  end.

Definition error_text (exc : Exn) : string := "Error: " ++ exc_text exc.

(** The [except Exception as exc] block. *)
Definition report_error (exc : Exn) : M Result :=
  logger_exception exc ;;;
  ret (RVal (PyStr (error_text exc))).

Definition wrap_error (func : Tool) : Tool :=
  let run (args : list pyval) (kwargs : dict) : M Result :=
    try_except
      (kwargs' <- lift (fill_defaults (signature func) kwargs) ;;
       call func args kwargs')
      report_error
  in
  mkTool (signature func) (jsonschema func) run.

(** *** Delegate *)

(** What the code reads of an agent: its own address and the pending
    reply address that [coagent.core.BaseAgent] keeps. *)
Record Agent : Type := mkAgent {
  address : Address;
  reply_address : option Address
}.

Record Delegate : Type := mkDelegate {
  host_agent : Agent;
  agent_type : string
}.

(** One run of an async generator: the values yielded, in order, and how
    the run ended; [Delegate.handle] ends with [full_content] in hand. *)
Record Generated : Type := mkGenerated {
  yielded : list ChatMessage;
  finished : Outcome string
}.

(** The [async for chunk in result] loop. *)
Fixpoint relay (agent_type : string) (result : list Envelope)
    (full_content : string) : Generated :=
  match result with
  | [] => mkGenerated [] (Ok full_content)
  | chunk :: rest =>
      match ChatMessage_decode chunk with
      | Raised e => mkGenerated [] (Raised e)
      | Ok resp =>
          let resp :=
            if negb (truthy (PyStr (sender resp)))
            then set_sender resp agent_type
            else resp in
          let tail :=
            relay agent_type rest (full_content ++ content resp) in
          mkGenerated (resp :: yielded tail) (finished tail)
      end
  end.

(** [Delegate.handle(msg)], with [responder] the streamed reply of
    whoever listens at an address. *)
Definition Delegate_handle
    (responder : Address -> Envelope -> list Envelope)
    (self : Delegate) (msg : ChatHistory) : M Generated :=
  let addr := mkAddress (agent_type self) (id (address (host_agent self))) in
  result <- publish_stream responder addr (EncChatHistory msg) ;;
  ret (relay (agent_type self) result EmptyString).

(** *** Gating state *)

(** Whether the penultimate message is a confirmation message. *)
Definition _has_confirm_message (history : ChatHistory) : bool :=
  (1 <? length (messages history))%nat
  && match penultimate_opt (messages history) with
     | Some m => String.eqb (type m) "confirm"
     | None => false
     end.

(** [history.messages[-1]]. *)
Definition last_message (history : ChatHistory) : Outcome ChatMessage :=
  match last_opt (messages history) with
  | Some m => Ok m
  | None => Raised (IndexError "list index out of range")
  end.

(** [update_user_confirmed]; the history is returned as updated. *)
Definition update_user_confirmed (client : ModelClient)
    (history : ChatHistory) : M ChatHistory :=
  let ctx := extensions history in
  let user_confirmed := user_confirmed ctx in
  let is_reply_to_confirm_message := _has_confirm_message history in
  user_confirmed <-
    (if truthy user_confirmed then
       if negb is_reply_to_confirm_message then ret (PyBool false)
       else ret user_confirmed
     else
       if is_reply_to_confirm_message then
         last <- lift (last_message history) ;;
         b <- is_user_confirmed (content last) client ;;
         ret (PyBool b)
       else ret user_confirmed) ;;
  ret (set_extensions history (set_user_confirmed ctx user_confirmed)).

(** Whether the last message is a user submission message. *)
Definition _is_submit_message (history : ChatHistory) : bool :=
  if (length (messages history) =? 0)%nat then false
  else
    match last_opt (messages history) with
    | Some last_msg =>
        String.eqb (role last_msg) "user"
        && String.eqb (type last_msg) "submit"
    | None => false
    end.

(** [update_user_submitted]; the history is returned as updated. *)
Definition update_user_submitted (history : ChatHistory)
  : M ChatHistory :=
  let ctx := extensions history in
  let ctx := set_user_submitted ctx (PyBool (_is_submit_message history)) in
  ret (set_extensions history ctx).

End ChatAgent.
Export ChatAgent.

(* ================================================================= *)
(** ** coagent/agents/sequential.py *)

Module Sequential.

Record Sequential : Type := mkSequential {
  base : Agent;
  _agent_types : list string
}.

(** [x or y] on optional addresses: an [Address] object is always
    true. *)
Definition or_else (x y : option Address) : option Address :=
  match x with
  | Some a => Some a
  | None => y
  end.

(** [Sequential.handle(msg, ctx)]; the message is returned as the
    handler leaves it. *)
Definition handle (self : Sequential) (msg : GenericMessage)
  : M GenericMessage :=
  match _agent_types self with
  | [] => ret msg
  | first :: _ =>
      let reply_address := or_else (reply_address (base self)) (g_reply msg) in
      msg <-
        (match reply_address with
         | Some target =>
             let last_addr :=
               mkAddress (last (_agent_types self) first)
                         (id (address (base self))) in
             publish last_addr (EncSetReplyAgent target) ;;;
             ret (set_reply msg None)
         | None => ret msg
         end) ;;
      let addr := mkAddress first (id (address (base self))) in
      publish addr (EncGenericMessage msg) ;;;
      ret msg
  end.

End Sequential.

(* ================================================================= *)
(** ** coagent/agents/util.py: streaming chat *)

Module UtilStream.

(** What the code reads of a streamed chunk: [chunk.choices[i].delta],
    whose [content] may be [None]. *)
Record Delta : Type := mkDelta { delta_content : option string }.

Record StreamChunk : Type := mkStreamChunk { chunk_choices : list Delta }.

(** The completion client called with [stream=True]: it returns the
    finite sequence of chunks, or raises. *)
Record StreamingClient : Type := mkStreamingClient {
  acompletion_stream : list ChatMessage -> M (list StreamChunk)
}.

(** One run of the [chat_stream] generator: the messages yielded, in
    order, and how the run ended. *)
Record Streamed : Type := mkStreamed {
  emitted : list ChatMessage;
  ended : Outcome unit
}.

(** [if msg.content] on an optional string. *)
Definition has_text (c : option string) : bool :=
  match c with
  | None => false
  | Some s => truthy (PyStr s)
  end.

Definition text_of (c : option string) : string :=
  match c with
  | None => EmptyString
  | Some s => s
  end.

(** The [async for chunk in response] loop of [chat_stream]. *)
Fixpoint stream_loop (response : list StreamChunk) : Streamed :=
  match response with
  | [] => mkStreamed [] (Ok tt)
  | chunk :: rest =>
      match chunk_choices chunk with
      | [] => mkStreamed [] (Raised (IndexError "list index out of range"))
      | msg :: _ =>
          let tail := stream_loop rest in
          if has_text (delta_content msg) then
            mkStreamed
              (mkChatMessage "assistant" (text_of (delta_content msg))
                             EmptyString EmptyString false
               :: emitted tail)
              (ended tail)
          else tail
      end
  end.

(** [chat_stream(messages, client)]. *)
Definition chat_stream (messages : list ChatMessage)
    (client : StreamingClient) : M Streamed :=
  response <- acompletion_stream client messages ;;
  ret (stream_loop response).

End UtilStream.
Export UtilStream.

(* ================================================================= *)
(** ** coagent/agents/chat_agent.py: the ChatAgent class *)

Module ChatAgentClass.

(** A callable as [__init__] sees it: the function and its [is_tool]
    attribute ([False] when absent). *)
Record Method : Type := mkMethod {
  fn : Tool;
  is_tool : bool
}.

(** The [tool] decorator. *)
Definition tool (func : Method) : Method := mkMethod (fn func) true.

(** What the code hands to the swarm agent. *)
Record SwarmAgent : Type := mkSwarmAgent {
  sa_name : string;
  sa_model : string;
  instructions : string;
  functions : list Tool
}.

(** What [run_and_stream] yields: a chat message or something else. *)
Inductive SwarmItem : Type :=
| ItemMessage (m : ChatMessage)
| ItemOther (kind : string).

(** The swarm client ([aswarm], outside the sources): the run is any
    coroutine that returns a finite sequence of items or raises. *)
Record Swarm : Type := mkSwarm {
  run_and_stream :
    SwarmAgent -> list ChatMessage -> option pyval -> dict ->
    M (list SwarmItem)
}.

Record ChatAgent : Type := mkChatAgent {
  base : Agent;
  _name : string;
  _system : string;
  _client : ModelClient;
  _swarm_client : Swarm;
  _swarm_agent : SwarmAgent;
  _history : ChatHistory
}.

Definition set_history (self : ChatAgent) (h : ChatHistory) : ChatAgent :=
  mkChatAgent (base self) (_name self) (_system self) (_client self)
              (_swarm_client self) (_swarm_agent self) h.

(** The character classes of the pattern in [name]. *)
Definition is_lower_or_digit (c : ascii) : bool :=
  let n := nat_of_ascii c in
  (((97 <=? n) && (n <=? 122)) || ((48 <=? n) && (n <=? 57)))%nat.

Definition is_upper (c : ascii) : bool :=
  let n := nat_of_ascii c in
  ((65 <=? n) && (n <=? 90))%nat.

(** [re.sub("([a-z0-9])([A-Z])", r"\1_\2", n)]: matches are found left to
    right and do not overlap; a match consumes both characters. *)
Fixpoint snake_sub (n : string) : string :=
  match n with
  | EmptyString => EmptyString
  | String a r =>
      match r with
      | EmptyString => String a EmptyString
      | String b r' =>
          if is_lower_or_digit a && is_upper b
          then String a (String "_" (String b (snake_sub r')))
          else String a (snake_sub r)
      end
  end.

(** The [name] property, for an instance of the class named
    [class_name]. *)
Definition name (self : ChatAgent) (class_name : string) : string :=
  if truthy (PyStr (_name self)) then _name self
  else lower (snake_sub class_name).

(** The tool list of [__init__]: the tools given ([tools or []]) followed
    by the member methods marked as tools, in member order. *)
Definition collect_tools (tools : option (list Tool))
    (methods : list (string * Method)) : list Tool :=
  let tools :=
    match tools with
    | Some (t :: ts) => t :: ts
    | _ => []
    end in
  fold_left
    (fun acc (entry : string * Method) =>
       if is_tool (snd entry) then (acc ++ [fn (snd entry)])%list else acc)
    methods tools.

(** [functions=[wrap_error(t) for t in tools]]. *)
Definition swarm_functions (tools : option (list Tool))
    (methods : list (string * Method)) : list Tool :=
  map wrap_error (collect_tools tools methods).

(** Modelled from the spec: [ChatMessage.has_content] of
    [coagent/agents/messages.py] (not among the sources), the non-empty
    content predicate of section 3. *)
Definition has_content (m : ChatMessage) : bool :=
  negb (String.eqb (content m) EmptyString).

(** [isinstance(resp, ChatMessage) and resp.has_content]. *)
Definition keeps (resp : SwarmItem) : bool :=
  match resp with
  | ItemMessage m => has_content m
  | ItemOther _ => false
  end.

Fixpoint kept (response : list SwarmItem) : list ChatMessage :=
  match response with
  | [] => []
  | ItemMessage m :: rest =>
      if has_content m then m :: kept rest else kept rest
  | ItemOther _ :: rest => kept rest
  end.

(** One run of [_handle_history]: the agent and the history as the run
    leaves them ([self._history] and [msg] are one object, so the refreshed
    extensions show through both) and the messages yielded. *)
Record Turn : Type := mkTurn {
  turn_self : ChatAgent;
  turn_msg : ChatHistory;
  turn_yielded : list ChatMessage
}.

(** [_handle_history(msg, response_format)]. *)
Definition _handle_history (self : ChatAgent) (msg : ChatHistory)
    (response_format : option pyval) : M Turn :=
  msg <- update_user_confirmed (_client self) msg ;;
  msg <- update_user_submitted msg ;;
  let self := set_history self msg in
  let swarm_agent := _swarm_agent self in
  response <- run_and_stream (_swarm_client self) swarm_agent
                (messages msg) response_format (extensions msg) ;;
  ret (mkTurn self msg (kept response)).

(** Modelled from the spec: [ChatHistory(messages=[msg])] has no reply
    address and an empty [extensions] mapping. *)
Definition history_of (msg : ChatMessage) : ChatHistory :=
  mkChatHistory [msg] None [].

(** [handle_history(msg, ctx)]. *)
Definition handle_history (self : ChatAgent) (msg : ChatHistory) : M Turn :=
  _handle_history self msg None.

(** [handle_message(msg, ctx)]. *)
Definition handle_message (self : ChatAgent) (msg : ChatMessage) : M Turn :=
  let history := history_of msg in
  _handle_history self history None.

(** The [input] of a [StructuredOutput]. *)
Inductive StructuredInput : Type :=
| InputMessage (m : ChatMessage)
| InputHistory (h : ChatHistory).

Record StructuredOutput : Type := mkStructuredOutput {
  input : StructuredInput;
  output_schema : pyval
}.

(** [handle_structured_output(msg, ctx)]. *)
Definition handle_structured_output (self : ChatAgent)
    (msg : StructuredOutput) : M Turn :=
  match input msg with
  | InputMessage m =>
      let history := history_of m in
      _handle_history self history (Some (output_schema msg))
  | InputHistory h => _handle_history self h (Some (output_schema msg))
  end.

(** [agent(agent_type)]: the delegate relays the agent's current
    history. *)
Definition agent (responder : Address -> Envelope -> list Envelope)
    (self : ChatAgent) (agent_type : string) : M Generated :=
  Delegate_handle responder (mkDelegate (base self) agent_type)
                  (_history self).

End ChatAgentClass.

(* ================================================================= *)
(** ** coagent/agents/sequential.py: start-up *)

Module SequentialStart.
Import Sequential.

(** [xs[i]] on a list of strings. *)
Definition item (xs : list string) (i : nat) : Outcome string :=
  match nth_error xs i with
  | Some x => Ok x
  | None => Raised (IndexError "tuple index out of range")
  end.

(** The body of the [for i in range(...)] loop of [started], over the
    indices still to visit. *)
Fixpoint wire (self : Sequential) (indices : list nat) : M unit :=
  match indices with
  | [] => ret tt
  | i :: rest =>
      a <- lift (item (_agent_types self) i) ;;
      let addr := mkAddress a (id (address (base self))) in
      b <- lift (item (_agent_types self) (i + 1)) ;;
      let next_addr := mkAddress b (id (address (base self))) in
      publish addr (EncSetReplyAgent next_addr) ;;;
      wire self rest
  end.

(** [Sequential.started()]. *)
Definition started (self : Sequential) : M unit :=
  wire self (seq 0 (length (_agent_types self) - 1)).

End SequentialStart.

(* ================================================================= *)
(** ** A concrete runtime and concrete tools, to run the code *)

Module Demo.

Definition hex_digit (n : nat) : string :=
  String (ascii_of_nat (if (n <? 10)%nat then 48 + n else 87 + n))
         EmptyString.

(** The escapes of the JSON encoder with [ensure_ascii=False]. *)
Definition json_escape_char (c : ascii) : string :=
  let n := nat_of_ascii c in
  if (n =? 34)%nat then "\" ++ dq
  else if (n =? 92)%nat then "\\"
  else if (n =? 10)%nat then "\n"
  else if (n =? 13)%nat then "\r"
  else if (n =? 9)%nat then "\t"
  else if (n =? 8)%nat then "\b"
  else if (n =? 12)%nat then "\f"
  else if (n <? 32)%nat
       then "\u00" ++ hex_digit (n / 16) ++ hex_digit (n mod 16)
  else String c EmptyString.

Fixpoint json_escape (s : string) : string :=
  match s with
  | EmptyString => EmptyString
  | String c r => json_escape_char c ++ json_escape r
  end.

Definition json_string (s : string) : string := dq ++ json_escape s ++ dq.

Fixpoint spaces (n : nat) : string :=
  match n with
  | O => EmptyString
  | S k => " " ++ spaces k
  end.

Definition decimal (n : Z) : string :=
  NilZero.string_of_int (Z.to_int n).

(** [json.dumps(v, ensure_ascii=False, indent=2)] on the value universe,
    at nesting depth [depth]. *)
Fixpoint dumps (depth : nat) (v : pyval) : string :=
  match v with
  | PyNone => "null"
  | PyBool true => "true"
  | PyBool false => "false"
  | PyInt n => decimal n
  | PyStr s => json_string s
  | PyDict [] => "{}"
  | PyDict items =>
      "{" ++ nl
      ++ (fix members (l : list (string * pyval)) : string :=
            match l with
            | [] => EmptyString
            | (k, x) :: r =>
                (spaces (2 * (depth + 1)) ++ json_string k ++ ": "
                 ++ dumps (depth + 1) x
                 ++ match r with
                    | [] => EmptyString
                    | _ :: _ => "," ++ nl
                    end
                 ++ members r)%string
            end) items
      ++ nl ++ spaces (2 * depth) ++ "}"
  end.

(** [str(v)] for the values a template field names in the examples:
    strings, integers, booleans and [None]. *)
Definition show (v : pyval) : Outcome string :=
  match v with
  | PyNone => Ok "None"
  | PyBool true => Ok "True"
  | PyBool false => Ok "False"
  | PyInt n => Ok (decimal n)
  | PyStr s => Ok s
  | PyDict _ => Raised (mkExn "NotImplementedError" "dict in a template")
  end.

Definition emit (text : string) (rest : Outcome string) : Outcome string :=
  match rest with
  | Ok out => Ok (text ++ out)
  | Raised e => Raised e
  end.

(** [str.format] with keyword arguments, restricted to the templates
    used here: literal text, doubled braces, and replacement fields that
    are plain names bound to the values [show] renders.  [field] is the
    name being read, if any. *)
Fixpoint format_from (field : option string) (template : string)
    (kwargs : dict) : Outcome string :=
  match template with
  | EmptyString =>
      match field with
      | None => Ok EmptyString
      | Some _ => Raised (ValueError "expected '}' before end of string")
      end
  | String c r =>
      match field with
      | Some name =>
          if Ascii.eqb c "}" then
            match dict_lookup name kwargs with
            | None => Raised (KeyError (repr_name name))
            | Some v =>
                match show v with
                | Ok text => emit text (format_from None r kwargs)
                | Raised e => Raised e
                end
            end
          else format_from (Some (name ++ String c EmptyString)) r kwargs
      | None =>
          if Ascii.eqb c "{" then
            match r with
            | EmptyString =>
                Raised (ValueError
                          "Single '{' encountered in format string")
            | String c' r' =>
                if Ascii.eqb c' "{"
                then emit "{" (format_from None r' kwargs)
                else format_from (Some EmptyString) r kwargs
            end
          else if Ascii.eqb c "}" then
            match r with
            | EmptyString =>
                Raised (ValueError
                          "Single '}' encountered in format string")
            | String c' r' =>
                if Ascii.eqb c' "}"
                then emit "}" (format_from None r' kwargs)
                else Raised (ValueError
                               "Single '}' encountered in format string")
            end
          else emit (String c EmptyString) (format_from None r kwargs)
      end
  end.

Definition runtime : Runtime := {|
  str_format := format_from None;
  json_dumps := fun v => Ok (dumps 0 v)
|}.

(** A tool that records its invocation in the world and returns
    [result]. *)
Definition recording_tool (tool_name : string)
    (sig : list (string * ParamDefault)) (result : Result) : Tool :=
  mkTool sig (Ok (PyDict [("type", PyStr "function");
                          ("function", PyDict [("name", PyStr tool_name)])]))
    (fun args kwargs w =>
       (Ok result,
        mkWorld (logged w) (outbox w)
                (invoked w ++ [mkInvocation tool_name args kwargs]))).

(** A tool that records its invocation and raises [exc]. *)
Definition raising_tool (tool_name : string)
    (sig : list (string * ParamDefault)) (exc : Exn) : Tool :=
  mkTool sig (Ok (PyDict [("type", PyStr "function");
                          ("function", PyDict [("name", PyStr tool_name)])]))
    (fun args kwargs w =>
       (Raised exc,
        mkWorld (logged w) (outbox w)
                (invoked w ++ [mkInvocation tool_name args kwargs]))).

(** The names between quotes as CPython lists missing arguments. *)
Fixpoint listed (names : list string) : string :=
  match names with
  | [] => EmptyString
  | [a] => repr_name a
  | [a; b] => repr_name a ++ " and " ++ repr_name b
  | a :: (((_ :: _ :: _) as rest)) =>
      match rest with
      | [b; c] =>
          repr_name a ++ ", " ++ repr_name b ++ ", and " ++ repr_name c
      | _ => repr_name a ++ ", " ++ listed rest
      end
  end.

Definition has_default (p : ParamDefault) : bool :=
  match p with
  | Empty => false
  | _ => true
  end.

(** The first keyword that the function cannot accept, in call order:
    one that names no parameter, or one that names a parameter already
    bound by position. *)
Fixpoint keyword_error (fname : string) (names bound : list string)
    (kwargs : dict) : option Exn :=
  match kwargs with
  | [] => None
  | (k, _) :: rest =>
      if negb (str_in k names) then
        Some (TypeError (fname ++ "() got an unexpected keyword argument "
                         ++ repr_name k))
      else if str_in k bound then
        Some (TypeError (fname ++ "() got multiple values for argument "
                         ++ repr_name k))
      else keyword_error fname names bound rest
  end.

(** Argument binding for a function defined as [def fname(p1, ..., pn)]
    with the parameters [sig]: the [TypeError] that the call raises before
    the body runs, if any. *)
Definition bind_error (fname : string) (sig : list (string * ParamDefault))
    (args : list pyval) (kwargs : dict) : option Exn :=
  let names := map fst sig in
  let n := length sig in
  let given := length args in
  match keyword_error fname names (firstn given names) kwargs with
  | Some e => Some e
  | None =>
      if (n <? given)%nat then
        let with_default := length (filter (fun p => has_default (snd p)) sig) in
        Some (TypeError
                (fname ++ "() takes "
                 ++ (if (with_default =? 0)%nat
                     then decimal (Z.of_nat n)
                     else "from " ++ decimal (Z.of_nat (n - with_default))
                          ++ " to " ++ decimal (Z.of_nat n))
                 ++ " positional argument"
                 ++ (if (n =? 1)%nat then EmptyString else "s")
                 ++ " but " ++ decimal (Z.of_nat given)
                 ++ (if (given =? 1)%nat then " was" else " were")
                 ++ " given"))
      else
        let missing :=
          map fst
            (filter (fun p => negb (has_default (snd p))
                              && negb (dict_has (fst p) kwargs))
                    (skipn given sig)) in
        match missing with
        | [] => None
        | _ :: _ =>
            Some (TypeError
                    (fname ++ "() missing "
                     ++ decimal (Z.of_nat (length missing))
                     ++ " required positional argument"
                     ++ (if (length missing =? 1)%nat
                         then EmptyString else "s")
                     ++ ": " ++ listed missing))
        end
  end.

(** A tool defined as [def tool_name(p1, ..., pn)]: a call that does not
    bind raises its [TypeError]; a call that binds records the invocation
    and returns [result]. *)
Definition def_tool (tool_name : string)
    (sig : list (string * ParamDefault)) (result : Result) : Tool :=
  mkTool sig (Ok (PyDict [("type", PyStr "function");
                          ("function", PyDict [("name", PyStr tool_name)])]))
    (fun args kwargs =>
       match bind_error tool_name sig args kwargs with
       | Some e => raise e
       | None =>
           fun w =>
             (Ok result,
              mkWorld (logged w) (outbox w)
                      (invoked w ++ [mkInvocation tool_name args kwargs]))
       end).

(** A client that answers every request with [answer] . *)
Definition constant_client (answer : string) : ModelClient :=
  mkModelClient "demo"
    (fun _ => ret (mkCompletion [mkChoiceMessage "assistant" answer])).

End Demo.

(* ================================================================= *)
(** ** Vocabulary of the statements *)

Module Vocabulary.

(** The world after the publications [ps], in order. *)
Definition published (w : World) (ps : list Publication) : World :=
  mkWorld (logged w) (outbox w ++ ps) (invoked w).

(** The world after [logger.exception(exc)]. *)
Definition logging (w : World) (exc : Exn) : World :=
  mkWorld (logged w ++ [exc]) (outbox w) (invoked w).

(** A chunk as the relay yields it. *)
Definition stamped (child_type : string) (m : ChatMessage) : ChatMessage :=
  if String.eqb (sender m) EmptyString then set_sender m child_type else m.

(** The contents of the chunks, one after the other. *)
Definition contents (ms : list ChatMessage) : string :=
  fold_right (fun m acc => content m ++ acc) EmptyString ms.

(** The history replies to a confirmation prompt: it has at least two
    messages and the second-to-last has type "confirm". *)
Definition replies_to_confirm (history : ChatHistory) : Prop :=
  exists init c m,
    messages history = (init ++ [c; m])%list /\ type c = "confirm".

(** The confirm guard as the specification words it, for one call: with
    a context among the keyword arguments, a false flag gives a "confirm"
    message without running the tool, a true flag gives the tool's own
    outcome. *)
Definition confirm_gate_as_stated {RT : Runtime} (template : string)
    (func : Tool) (args : list pyval) (kwargs : dict) : Prop :=
  forall ctx,
    dict_lookup "ctx" kwargs = Some (PyDict ctx) ->
    (truthy (user_confirmed ctx) = false ->
     forall w, exists text,
       call (confirm template func) args kwargs w
       = (Ok (RMsg (control_message text "confirm")), w))
    /\ (truthy (user_confirmed ctx) = true ->
        forall w,
          call (confirm template func) args kwargs w
          = call func args kwargs w).

(** [part] occurs in [text]. *)
Definition embeds (text part : string) : Prop :=
  exists pre post, text = pre ++ part ++ post.

(** The built-in form of the submit guard with the two JSON texts in
    place. *)
Definition submit_form (schema_json input_json : string) : string :=
  "Please fill in the input form below:" ++ nl ++ nl
  ++ bq3 ++ "schema" ++ nl
  ++ schema_json ++ nl
  ++ bq3 ++ nl ++ nl
  ++ bq3 ++ "input" ++ nl
  ++ input_json ++ nl
  ++ bq3.

(** The template the submit guard formats. *)
Definition submit_template (template : string) : string :=
  if String.eqb template EmptyString then default_submit_template
  else template.

(** The submit guard as the specification words it, for one call: with
    a context whose [user_submitted] reads false, the guard returns a
    "submit" message whose content embeds the JSON text of the tool's
    schema and the JSON text of the keyword arguments other than "ctx",
    and the tool does not run. *)
Definition submit_gate_as_stated {RT : Runtime} (template : string)
    (func : Tool) (args : list pyval) (kwargs : dict) : Prop :=
  forall ctx,
    dict_lookup "ctx" kwargs = Some (PyDict ctx) ->
    truthy (user_submitted ctx) = false ->
    forall w, exists text raw schema_fn schema_json input_json,
      jsonschema func = Ok raw
      /\ getitem raw "function" = Ok schema_fn
      /\ json_dumps schema_fn = Ok schema_json
      /\ json_dumps (PyDict (dict_without "ctx" kwargs)) = Ok input_json
      /\ call (submit template func) args kwargs w
         = (Ok (RMsg (control_message text "submit")), w)
      /\ embeds text schema_json
      /\ embeds text input_json.

(** The error-wrap guard as the specification words it, for one call:
    whatever the wrapped tool raises comes back as "Error: " followed by
    its text. *)
Definition wrap_error_as_stated (func : Tool) (args : list pyval)
    (kwargs : dict) (w : World) : Prop :=
  forall kwargs' exc w',
    fill_defaults (signature func) kwargs = Ok kwargs' ->
    call func args kwargs' w = (Raised exc, w') ->
    exists w'',
      call (wrap_error func) args kwargs w
      = (Ok (RVal (PyStr ("Error: " ++ exc_text exc))), w'').

(** The check of required arguments as the specification words it, for
    one call: a declared parameter with no default, absent from the call,
    gives the "Missing required argument" result. *)
Definition missing_required_as_stated (func : Tool) (args : list pyval)
    (kwargs : dict) (w : World) : Prop :=
  forall name,
    In (name, Empty) (signature func)
    \/ In (name, FieldInfo None) (signature func) ->
    dict_lookup name kwargs = None ->
    exists name' w',
      call (wrap_error func) args kwargs w
      = (Ok (RVal (PyStr ("Error: Missing required argument "
                          ++ sq ++ name' ++ sq))),
         w').

(** The classifier as the specification words it, for one call on an
    input outside the fast paths: it answers true or false. *)
Definition classifier_as_stated (content : string) (client : ModelClient)
    (w : World) : Prop :=
  ~ In (lower content) ["yes"; "ok"; "1"; "no"; "do not"; "0"] ->
  exists b w', is_user_confirmed content client w = (Ok b, w').

(** The rule for [user_confirmed] as the specification words it, for one
    run that returns: the flag ends true exactly when the history replies
    to a confirmation prompt and the classification of the last message
    is affirmative. *)
Definition confirmed_rule_as_stated (client : ModelClient)
    (history : ChatHistory) (w : World) : Prop :=
  forall history' w',
    update_user_confirmed client history w = (Ok history', w') ->
    (truthy (user_confirmed (extensions history')) = true <->
     exists init c m,
       messages history = (init ++ [c; m])%list
       /\ type c = "confirm"
       /\ fst (is_user_confirmed (content m) client w) = Ok true).

End Vocabulary.
Export Vocabulary.

(* ================================================================= *)
(** ** Vocabulary of the further statements *)

Module Vocabulary2.

(** The forward chain over the stages: each stage but the last is told
    to reply to the stage after it. *)
Fixpoint chain (sid : string) (types : list string) : list Publication :=
  match types with
  | a :: ((b :: _) as rest) =>
      mkPublication (mkAddress a sid)
                    (EncSetReplyAgent (mkAddress b sid)) false
      :: chain sid rest
  | _ => []
  end.

(** The text a streamed chunk carries in its first choice. *)
Definition first_text (chunk : StreamChunk) : string :=
  match chunk_choices chunk with
  | d :: _ => text_of (delta_content d)
  | [] => EmptyString
  end.

Definition nonempty (s : string) : bool := negb (String.eqb s EmptyString).

(** Strings one after the other. *)
Definition joined (parts : list string) : string :=
  fold_right append EmptyString parts.

(** The characters of a string that satisfy a test. *)
Fixpoint keep_chars (p : ascii -> bool) (s : string) : string :=
  match s with
  | EmptyString => EmptyString
  | String c r => if p c then String c (keep_chars p r) else keep_chars p r
  end.

Definition is_underscore (c : ascii) : bool := Ascii.eqb c "_".

Definition drop_underscores (s : string) : string :=
  keep_chars (fun c => negb (is_underscore c)) s.

(** Every character of the string is white space. *)
Fixpoint all_space (s : string) : bool :=
  match s with
  | EmptyString => true
  | String c r => isspace c && all_space r
  end.

End Vocabulary2.
Export Vocabulary2.

(* ================================================================= *)
(** ** Lists and dictionaries *)

Section Lists.
Context {A : Type}.
Local Open Scope list_scope.

Lemma last_opt_snoc (init : list A) (x : A) :
  last_opt (init ++ [x]) = Some x.
Proof.
  unfold last_opt. rewrite rev_app_distr. reflexivity.
Qed.

Lemma last_opt_Some (xs : list A) (x : A) :
  last_opt xs = Some x -> exists init, xs = init ++ [x].
Proof.
  unfold last_opt. intros H.
  destruct (rev xs) as [|y t] eqn:E; [discriminate|].
  injection H as ->.
  exists (rev t). rewrite <- (rev_involutive xs), E. reflexivity.
Qed.

Lemma last_opt_None (xs : list A) : last_opt xs = None -> xs = [].
Proof.
  unfold last_opt. intros H.
  destruct (rev xs) as [|y t] eqn:E; [|discriminate].
  rewrite <- (rev_involutive xs), E. reflexivity.
Qed.

Lemma penultimate_opt_snoc2 (init : list A) (x y : A) :
  penultimate_opt (init ++ [x; y]) = Some x.
Proof.
  unfold penultimate_opt. rewrite rev_app_distr. reflexivity.
Qed.

Lemma penultimate_opt_Some (xs : list A) (x : A) :
  penultimate_opt xs = Some x -> exists init y, xs = init ++ [x; y].
Proof.
  unfold penultimate_opt. intros H.
  destruct (rev xs) as [|y [|z t]] eqn:E; try discriminate.
  injection H as ->.
  exists (rev t), y. rewrite <- (rev_involutive xs), E. simpl.
  rewrite <- app_assoc. reflexivity.
Qed.

Lemma last_snoc (init : list A) (x d : A) : last (init ++ [x]) d = x.
Proof.
  induction init as [|a init IH]; [reflexivity|].
  simpl. destruct (init ++ [x]) eqn:E; [|exact IH].
  destruct init; discriminate.
Qed.

End Lists.

Section Strings.

Lemma append_nil_r (s : string) : s ++ EmptyString = s.
Proof. induction s as [|c s IH]; simpl; [|rewrite IH]; reflexivity. Qed.

Lemma append_assoc (a b c : string) : (a ++ b) ++ c = a ++ (b ++ c).
Proof. induction a as [|x a IH]; simpl; [|rewrite IH]; reflexivity. Qed.

End Strings.

Section Dicts.

Lemma dict_lookup_set_same (k : string) (v : pyval) (d : dict) :
  dict_lookup k (dict_set k v d) = Some v.
Proof.
  induction d as [|[k' v'] d IH]; simpl.
  - rewrite String.eqb_refl. reflexivity.
  - destruct (String.eqb k k') eqn:E; simpl; rewrite E; auto.
Qed.

Lemma dict_lookup_set_other (k k' : string) (v : pyval) (d : dict) :
  k <> k' -> dict_lookup k' (dict_set k v d) = dict_lookup k' d.
Proof.
  intros Hne. induction d as [|[k0 v0] d IH]; simpl.
  - destruct (String.eqb k' k) eqn:E; [|reflexivity].
    apply String.eqb_eq in E. congruence.
  - destruct (String.eqb k k0) eqn:E; simpl.
    + apply String.eqb_eq in E. subst k0.
      destruct (String.eqb k' k) eqn:E'; [|reflexivity].
      apply String.eqb_eq in E'. congruence.
    + rewrite IH. reflexivity.
Qed.

Lemma dict_lookup_without (x k : string) (d : dict) :
  dict_lookup k (dict_without x d)
  = if String.eqb k x then None else dict_lookup k d.
Proof.
  unfold dict_without.
  induction d as [|[k0 v0] d IH]; simpl.
  - destruct (String.eqb k x); reflexivity.
  - destruct (String.eqb k0 x) eqn:E0; simpl.
    + apply String.eqb_eq in E0. subst k0. rewrite IH.
      destruct (String.eqb k x); reflexivity.
    + rewrite IH. destruct (String.eqb k k0) eqn:E; [|reflexivity].
      apply String.eqb_eq in E. subst k0. rewrite E0. reflexivity.
Qed.

Lemma dict_get_set_same (k : string) (v default : pyval) (d : dict) :
  dict_get k default (dict_set k v d) = v.
Proof. unfold dict_get. rewrite dict_lookup_set_same. reflexivity. Qed.

Lemma dict_has_lookup (k : string) (d : dict) :
  dict_has k d = false <-> dict_lookup k d = None.
Proof.
  unfold dict_has. destruct (dict_lookup k d); split; congruence.
Qed.

End Dicts.

(* ================================================================= *)
(** ** Sentiment classification *)

Lemma str_in_In (x : string) (xs : list string) :
  str_in x xs = true <-> In x xs.
Proof.
  unfold str_in. rewrite existsb_exists. split.
  - intros [y [Hin Heq]]. apply String.eqb_eq in Heq. subst. exact Hin.
  - intros Hin. exists x. split; [exact Hin | apply String.eqb_refl].
Qed.

Lemma str_in_not_In (x : string) (xs : list string) :
  str_in x xs = false <-> ~ In x xs.
Proof.
  rewrite <- str_in_In. destruct (str_in x xs); split; congruence.
Qed.




Example is_user_confirmed_without_choice :
  is_user_confirmed "sure, go ahead"
    (mkModelClient "demo" (fun _ => ret (mkCompletion []))) world0
  = (Raised (IndexError "list index out of range"), world0).
Proof. reflexivity. Qed.

(* ================================================================= *)
(** ** Gating state: user_submitted *)

Lemma is_submit_message_iff (history : ChatHistory) :
  _is_submit_message history = true <->
  exists init last_msg,
    messages history = (init ++ [last_msg])%list
    /\ role last_msg = "user" /\ type last_msg = "submit".
Proof.
  unfold _is_submit_message. split.
  - destruct (length (messages history) =? 0)%nat; [discriminate|].
    destruct (last_opt (messages history)) as [m|] eqn:E; [|discriminate].
    intros H. apply andb_true_iff in H. destruct H as [Hr Ht].
    apply String.eqb_eq in Hr, Ht.
    destruct (last_opt_Some _ _ E) as [init Hinit].
    exists init, m. auto.
  - intros [init [m [Hm [Hr Ht]]]]. rewrite Hm.
    rewrite length_app, last_opt_snoc. simpl.
    replace (length init + 1 =? 0)%nat with false
      by (symmetry; apply Nat.eqb_neq; lia).
    rewrite Hr, Ht. reflexivity.
Qed.

(** C10. [update_user_submitted] always returns, touches nothing but the
    extensions, and leaves [user_submitted] true exactly when the history
    ends with a message of role "user" and type "submit"; an empty history
    or any other last message leaves it false, whatever it was before. *)
Theorem update_user_submitted_spec (history : ChatHistory) (w : World) :
  exists history',
    update_user_submitted history w = (Ok history', w)
    /\ messages history' = messages history
    /\ reply history' = reply history
    /\ user_submitted (extensions history')
       = PyBool (_is_submit_message history)
    /\ (truthy (user_submitted (extensions history')) = true <->
        exists init last_msg,
          messages history = (init ++ [last_msg])%list
          /\ role last_msg = "user" /\ type last_msg = "submit").
Proof.
  eexists. split; [reflexivity|]. simpl.
  unfold user_submitted, set_user_submitted.
  rewrite dict_get_set_same. simpl.
  repeat split; try reflexivity; apply is_submit_message_iff.
Qed.

(* ================================================================= *)
(** ** Sequential composition *)

Section SequentialHandle.
Import Sequential.
Local Open Scope list_scope.

Variable self : Sequential.
Variable msg : GenericMessage.

Lemma handle_unfold (first lst : string) (rest init : list string) :
  _agent_types self = first :: rest ->
  _agent_types self = init ++ [lst] ->
  forall w,
    handle self msg w =
    match or_else (reply_address (base self)) (g_reply msg) with
    | Some target =>
        (Ok (set_reply msg None),
         published w
           [mkPublication (mkAddress lst (id (address (base self))))
                          (EncSetReplyAgent target)
                          false;
            mkPublication (mkAddress first (id (address (base self))))
                          (EncGenericMessage (set_reply msg None)) false])
    | None =>
        (Ok msg,
         published w
           [mkPublication (mkAddress first (id (address (base self))))
                          (EncGenericMessage msg)
                          false])
    end.
Proof.
  intros Hfirst Hlast w. unfold handle. rewrite Hfirst.
  rewrite <- Hfirst, Hlast, last_snoc.
  destruct (or_else _ _) as [target|]; unfold bind, publish, published;
    simpl; [rewrite <- app_assoc|]; reflexivity.
Qed.

(** C3. With no agent type the handler returns without publishing.
    Otherwise, with [first] the first and [lst] the last type name and
    every address built on the composer's own instance id: when the
    composer has a pending reply target, or else when the message carries
    a reply address, the handler publishes exactly two things, in this
    order: one set-reply-target directive naming that address (the
    composer's own target first) to the last agent, then the message with
    its [reply] cleared to the first agent; when neither is there it
    publishes only the message, whose [reply] is already empty, to the
    first agent. *)
Theorem Sequential_handle_spec (w : World) :
  (_agent_types self = [] -> handle self msg w = (Ok msg, w))
  /\ (forall first lst rest init,
        _agent_types self = first :: rest ->
        _agent_types self = init ++ [lst] ->
        (forall target,
           reply_address (base self) = Some target
           \/ (reply_address (base self) = None
               /\ g_reply msg = Some target) ->
           handle self msg w =
           (Ok (set_reply msg None),
            published w
              [mkPublication (mkAddress lst (id (address (base self))))
                             (EncSetReplyAgent target) false;
               mkPublication (mkAddress first (id (address (base self))))
                             (EncGenericMessage (set_reply msg None))
                             false]))
        /\ (reply_address (base self) = None ->
            g_reply msg = None ->
            handle self msg w =
            (Ok msg,
             published w
               [mkPublication (mkAddress first (id (address (base self))))
                              (EncGenericMessage msg) false])
            /\ g_reply msg = None)).
Proof.
  split.
  - intros Hnil. unfold handle. rewrite Hnil. reflexivity.
  - intros first lst rest init Hfirst Hlast.
    pose proof (handle_unfold first lst rest init Hfirst Hlast w) as H.
    split.
    + intros target [Hp | [Hp Hm]]; rewrite H, Hp; simpl;
        [|rewrite Hm]; reflexivity.
    + intros Hp Hm. rewrite H, Hp. simpl. rewrite Hm. auto.
Qed.

End SequentialHandle.

Lemma Sequential_handle_spec_witness :
  let a := mkAgent (mkAddress "pipeline" "s1") None in
  let caller := mkAddress "caller" "c9" in
  let m := mkGenericMessage "payload" (Some caller) in
  Sequential.handle (Sequential.mkSequential a []) m world0 = (Ok m, world0)
  /\ Sequential.handle (Sequential.mkSequential a ["x"; "y"; "z"]) m world0
     = (Ok (mkGenericMessage "payload" None),
        mkWorld []
          [mkPublication (mkAddress "z" "s1") (EncSetReplyAgent caller) false;
           mkPublication (mkAddress "x" "s1")
             (EncGenericMessage (mkGenericMessage "payload" None)) false]
          []).
Proof.
  intros a caller m. split.
  - apply (Sequential_handle_spec (Sequential.mkSequential a []) m world0).
    reflexivity.
  - destruct (Sequential_handle_spec
                (Sequential.mkSequential a ["x"; "y"; "z"]) m world0)
      as [_ H].
    destruct (H "x" "z" ["y"; "z"] ["x"; "y"] eq_refl eq_refl) as [Hset _].
    apply (Hset caller). right. split; reflexivity.
Defined.

(* ================================================================= *)
(** ** Delegate relay *)

Section DelegateHandle.
Local Open Scope list_scope.

Variable responder : Address -> Envelope -> list Envelope.
Variable self : Delegate.
Variable msg : ChatHistory.

Lemma relay_decoded (t : string) (ms : list ChatMessage) :
  forall acc,
    relay t (map EncChatMessage ms) acc
    = mkGenerated (map (stamped t) ms)
                  (Ok (acc ++ contents ms)%string).
Proof.
  induction ms as [|m ms IH]; intros acc; simpl.
  - rewrite append_nil_r. reflexivity.
  - rewrite IH. simpl. unfold stamped.
    assert (Hc : forall s : string,
               content (if negb (negb (String.eqb s EmptyString))
                        then set_sender m t else m) = content m).
    { intros s. destruct (negb _); reflexivity. }
    rewrite Hc, negb_involutive.
    rewrite append_assoc. reflexivity.
Qed.

Lemma stamped_sender (t : string) (m : ChatMessage) :
  (sender m = EmptyString -> stamped t m = set_sender m t)
  /\ (sender m <> EmptyString -> stamped t m = m).
Proof.
  unfold stamped. split; intros H.
  - rewrite H. reflexivity.
  - apply String.eqb_neq in H. rewrite H. reflexivity.
Qed.

(** C7. When the child answers the forwarded history with a finite
    stream of encoded chat messages [ms], the relay publishes the history
    once, as a streaming request, to the child's address on the host's
    instance id, and runs to its end having yielded one message per
    chunk, in stream order: the chunk itself when it declared a sender,
    and the chunk with the child's type name as sender when it declared
    none. *)
Theorem Delegate_handle_relays (ms : list ChatMessage) (w : World) :
  responder (mkAddress (agent_type self) (id (address (host_agent self))))
            (EncChatHistory msg)
  = map EncChatMessage ms ->
  exists g,
    Delegate_handle responder self msg w
    = (Ok g,
       published w
         [mkPublication
            (mkAddress (agent_type self) (id (address (host_agent self))))
            (EncChatHistory msg) true])
    /\ finished g = Ok (contents ms)
    /\ length (yielded g) = length ms
    /\ forall i m,
         nth_error ms i = Some m ->
         exists m',
           nth_error (yielded g) i = Some m'
           /\ role m' = role m /\ content m' = content m
           /\ type m' = type m /\ to_user m' = to_user m
           /\ (sender m = EmptyString -> sender m' = agent_type self)
           /\ (sender m <> EmptyString -> m' = m).
Proof.
  intros Hstream.
  exists (mkGenerated (map (stamped (agent_type self)) ms)
            (Ok (contents ms))).
  split; [|split; [reflexivity|split; [apply length_map|]]].
  - unfold Delegate_handle, bind, publish_stream, ret, published.
    rewrite Hstream, relay_decoded. reflexivity.
  - intros i m Hi. exists (stamped (agent_type self) m). simpl.
    split; [apply map_nth_error; exact Hi|].
    destruct (stamped_sender (agent_type self) m) as [He Hn].
    destruct (String.eqb (sender m) EmptyString) eqn:E.
    + apply String.eqb_eq in E. rewrite (He E).
      repeat split; try reflexivity. congruence.
    + apply String.eqb_neq in E. rewrite (Hn E).
      repeat split; try reflexivity. congruence.
Qed.

End DelegateHandle.

Lemma Delegate_handle_relays_witness :
  let host := mkAgent (mkAddress "host" "s1") None in
  let self := mkDelegate host "child" in
  let chunk (text : string) :=
    mkChatMessage "assistant" text EmptyString EmptyString false in
  let ms := [chunk "a"; chunk "b"; chunk "c"] in
  let history :=
    mkChatHistory [mkChatMessage "user" "hi" EmptyString EmptyString false]
                  None [] in
  exists g,
    fst (Delegate_handle (fun _ _ => map EncChatMessage ms) self history
           world0) = Ok g
    /\ map sender (yielded g) = ["child"; "child"; "child"].
Proof.
  intros host self chunk ms history.
  destruct (Delegate_handle_relays (fun _ _ => map EncChatMessage ms)
              self history ms world0 eq_refl)
    as [g [Hrun [_ [Hlen Hnth]]]].
  exists g. split; [rewrite Hrun; reflexivity|].
  destruct (Hnth 0 (chunk "a") eq_refl) as [m0 [H0 [_ [_ [_ [_ [S0 _]]]]]]].
  destruct (Hnth 1 (chunk "b") eq_refl) as [m1 [H1 [_ [_ [_ [_ [S1 _]]]]]]].
  destruct (Hnth 2 (chunk "c") eq_refl) as [m2 [H2 [_ [_ [_ [_ [S2 _]]]]]]].
  destruct (yielded g) as [|y0 [|y1 [|y2 [|y3 t]]]]; try discriminate.
  simpl in H0, H1, H2. injection H0 as ->. injection H1 as ->.
  injection H2 as ->.
  simpl. rewrite (S0 eq_refl), (S1 eq_refl), (S2 eq_refl). reflexivity.
Defined.

(* ================================================================= *)
(** ** Confirm and submit guards *)

Section Guards.
Context {RT : Runtime}.
Variable template : string.
Variable func : Tool.
Variable args : list pyval.
Variable kwargs : dict.

Lemma truthy_nonempty (ctx : dict) : ctx <> [] -> truthy (PyDict ctx) = true.
Proof. destruct ctx; [contradiction|reflexivity]. Qed.

Lemma confirm_unfold (ctx : dict) :
  dict_lookup "ctx" kwargs = Some (PyDict ctx) ->
  ctx <> [] ->
  call (confirm template func) args kwargs
  = if negb (truthy (user_confirmed ctx)) then
      match str_format template kwargs with
      | Raised e => raise e
      | Ok text => ret (RMsg (control_message text "confirm"))
      end
    else call func args kwargs.
Proof.
  intros Hctx Hne. unfold confirm. simpl. unfold dict_get.
  rewrite Hctx, (truthy_nonempty ctx Hne). reflexivity.
Qed.

(** C1 (amended). For a call whose keyword arguments hold a non-empty
    context mapping [ctx]: when [user_confirmed] reads false the guard is
    the formatting of the template with the keyword arguments followed by
    the return of an assistant message of type "confirm", directed to the
    user, with the formatted text as content (what the formatting raises
    is raised); the wrapped tool takes no part and the world is left as
    it was.  When [user_confirmed] reads true the guard is the wrapped
    tool called with the same arguments. *)
Theorem confirm_gate (ctx : dict) :
  dict_lookup "ctx" kwargs = Some (PyDict ctx) ->
  ctx <> [] ->
  (truthy (user_confirmed ctx) = false ->
   call (confirm template func) args kwargs
   = match str_format template kwargs with
     | Ok text => ret (RMsg (control_message text "confirm"))
     | Raised e => raise e
     end
   /\ forall w, snd (call (confirm template func) args kwargs w) = w)
  /\ (truthy (user_confirmed ctx) = true ->
      call (confirm template func) args kwargs = call func args kwargs).
Proof.
  intros Hctx Hne. rewrite (confirm_unfold ctx Hctx Hne).
  split; intros Hflag; rewrite Hflag; simpl.
  - split; [destruct (str_format template kwargs); reflexivity|].
    intros w. destruct (str_format template kwargs); reflexivity.
  - reflexivity.
Qed.

Lemma submit_unfold (ctx : dict) :
  dict_lookup "ctx" kwargs = Some (PyDict ctx) ->
  ctx <> [] ->
  truthy (user_submitted ctx) = false ->
  call (submit template func) args kwargs
  = (raw <- lift (jsonschema func) ;;
     schema_fn <- lift (getitem raw "function") ;;
     schema_json <- lift (json_dumps schema_fn) ;;
     input_json <- lift (json_dumps (PyDict (dict_without "ctx" kwargs))) ;;
     text <- lift (str_format (submit_template template)
                     [("schema", PyStr schema_json);
                      ("input", PyStr input_json)]) ;;
     ret (RMsg (control_message text "submit"))).
Proof.
  intros Hctx Hne Hflag. unfold submit, submit_template. simpl.
  unfold dict_get.
  rewrite Hctx, (truthy_nonempty ctx Hne). simpl. rewrite Hflag. simpl.
  destruct (String.eqb template EmptyString); reflexivity.
Qed.

Lemma submit_form_embeds (schema_json input_json : string) :
  embeds (submit_form schema_json input_json) schema_json
  /\ embeds (submit_form schema_json input_json) input_json.
Proof.
  unfold embeds, submit_form. split.
  - exists ("Please fill in the input form below:" ++ nl ++ nl
            ++ bq3 ++ "schema" ++ nl),
           (nl ++ bq3 ++ nl ++ nl ++ bq3 ++ "input" ++ nl
            ++ input_json ++ nl ++ bq3).
    reflexivity.
  - exists (("Please fill in the input form below:" ++ nl ++ nl
             ++ bq3 ++ "schema" ++ nl)
            ++ schema_json
            ++ (nl ++ bq3 ++ nl ++ nl ++ bq3 ++ "input" ++ nl)),
           (nl ++ bq3).
    rewrite !append_assoc. reflexivity.
Qed.

(** C6 (amended). For a call whose keyword arguments hold a non-empty
    context mapping whose [user_submitted] reads false.  The guard never
    runs the tool: it leaves the world as it was and its outcome is the
    same for any tool body.  When the tool's schema is available and has a
    "function" entry and both JSON renderings succeed, the guard formats
    the template (the built-in form when none was given) with [schema]
    bound to the JSON text of that entry and [input] bound to the JSON text
    of the object made of the call's keyword arguments other than "ctx", in
    their order and with their supplied values, and returns an assistant
    message of type "submit", directed to the user, with the formatted text
    as content; what the formatting raises is raised.  With the built-in
    form, formatted by placing the two values where it names them, the
    content is the form with both JSON texts in it verbatim.  An error
    raised while the schema is computed, looked up or rendered, or while
    the input is rendered, is raised by the guard. *)
Theorem submit_gate (ctx : dict) :
  dict_lookup "ctx" kwargs = Some (PyDict ctx) ->
  ctx <> [] ->
  truthy (user_submitted ctx) = false ->
  (forall w, snd (call (submit template func) args kwargs w) = w)
  /\ (forall body w,
        call (submit template func) args kwargs w
        = call (submit template
                  (mkTool (signature func) (jsonschema func) body))
               args kwargs w)
  /\ (forall raw schema_fn schema_json input_json,
        jsonschema func = Ok raw ->
        getitem raw "function" = Ok schema_fn ->
        json_dumps schema_fn = Ok schema_json ->
        json_dumps (PyDict (dict_without "ctx" kwargs)) = Ok input_json ->
        (forall w,
           call (submit template func) args kwargs w
           = match str_format (submit_template template)
                     [("schema", PyStr schema_json);
                      ("input", PyStr input_json)] with
             | Ok text => (Ok (RMsg (control_message text "submit")), w)
             | Raised e => (Raised e, w)
             end)
        /\ (template = EmptyString ->
            (forall s i,
               str_format default_submit_template
                 [("schema", PyStr s); ("input", PyStr i)]
               = Ok (submit_form s i)) ->
            (forall w,
               call (submit template func) args kwargs w
               = (Ok (RMsg (control_message
                              (submit_form schema_json input_json)
                              "submit")),
                  w))
            /\ embeds (submit_form schema_json input_json) schema_json
            /\ embeds (submit_form schema_json input_json) input_json))
  /\ (forall e,
        jsonschema func = Raised e
        \/ (exists raw,
              jsonschema func = Ok raw
              /\ (getitem raw "function" = Raised e
                  \/ exists schema_fn,
                       getitem raw "function" = Ok schema_fn
                       /\ (json_dumps schema_fn = Raised e
                           \/ exists schema_json,
                                json_dumps schema_fn = Ok schema_json
                                /\ json_dumps
                                     (PyDict (dict_without "ctx" kwargs))
                                   = Raised e))) ->
        forall w, call (submit template func) args kwargs w = (Raised e, w))
  /\ (forall k,
        dict_lookup k (dict_without "ctx" kwargs)
        = if String.eqb k "ctx" then None else dict_lookup k kwargs)
  /\ map fst (dict_without "ctx" kwargs)
     = filter (fun k => negb (String.eqb k "ctx")) (map fst kwargs).
Proof.
  intros Hctx Hne Hflag.
  split; [|split; [|split; [|split; [|split]]]].
  - intros w. rewrite (submit_unfold ctx Hctx Hne Hflag).
    unfold bind, lift, ret, raise.
    destruct (jsonschema func) as [raw|e]; [|reflexivity].
    destruct (getitem raw "function") as [schema_fn|e]; [|reflexivity].
    destruct (json_dumps schema_fn) as [schema_json|e]; [|reflexivity].
    destruct (json_dumps (PyDict (dict_without "ctx" kwargs)))
      as [input_json|e]; [|reflexivity].
    destruct (str_format _ _); reflexivity.
  - intros body w. unfold submit. simpl. unfold dict_get.
    rewrite Hctx, (truthy_nonempty ctx Hne). simpl. rewrite Hflag.
    reflexivity.
  - intros raw schema_fn schema_json input_json Hraw Hschema Hsj Hij.
    rewrite (submit_unfold ctx Hctx Hne Hflag).
    assert (Hrun : forall w,
               (raw <- lift (jsonschema func) ;;
                schema_fn <- lift (getitem raw "function") ;;
                schema_json <- lift (json_dumps schema_fn) ;;
                input_json <-
                  lift (json_dumps (PyDict (dict_without "ctx" kwargs))) ;;
                text <- lift (str_format (submit_template template)
                                [("schema", PyStr schema_json);
                                 ("input", PyStr input_json)]) ;;
                ret (RMsg (control_message text "submit"))) w
               = match str_format (submit_template template)
                         [("schema", PyStr schema_json);
                          ("input", PyStr input_json)] with
                 | Ok text => (Ok (RMsg (control_message text "submit")), w)
                 | Raised e => (Raised e, w)
                 end).
    { intros w. unfold bind. rewrite Hraw. simpl. rewrite Hschema. simpl.
      rewrite Hsj. simpl. rewrite Hij. simpl.
      destruct (str_format _ _); reflexivity. }
    split; [exact Hrun|].
    intros Htemplate Hverbatim. split.
    + intros w. rewrite Hrun. unfold submit_template.
      rewrite Htemplate. simpl. rewrite Hverbatim. reflexivity.
    + apply submit_form_embeds.
  - intros e He w. rewrite (submit_unfold ctx Hctx Hne Hflag). unfold bind.
    destruct He as [-> | [raw [-> He]]]; [reflexivity|]. simpl.
    destruct He as [-> | [schema_fn [-> He]]]; [reflexivity|]. simpl.
    destruct He as [-> | [schema_json [-> He]]]; [reflexivity|]. simpl.
    rewrite He. reflexivity.
  - intros k. apply dict_lookup_without.
  - unfold dict_without. clear.
    induction kwargs as [|[k v] d IH]; [reflexivity|]. simpl.
    destruct (String.eqb k "ctx"); simpl; rewrite IH; reflexivity.
Qed.

(** C5. A call with no "ctx" keyword argument, or with one whose value
    is false in a boolean context, goes straight to the wrapped tool, for
    the confirm guard and for the submit guard alike. *)
Theorem gate_bypass_without_ctx :
  (dict_lookup "ctx" kwargs = None
   \/ exists v, dict_lookup "ctx" kwargs = Some v /\ truthy v = false) ->
  call (confirm template func) args kwargs = call func args kwargs
  /\ call (submit template func) args kwargs = call func args kwargs.
Proof.
  intros H.
  assert (Hfalsy : truthy (dict_get "ctx" PyNone kwargs) = false).
  { unfold dict_get. destruct H as [-> | [v [-> Hv]]]; [reflexivity|exact Hv]. }
  unfold confirm, submit. simpl. rewrite Hfalsy. split; reflexivity.
Qed.

End Guards.

(** The confirm guard on a populated context: the prompt is returned and
    the recording tool records nothing; once confirmed, the tool runs. *)
Lemma confirm_gate_witness :
  let tool := Demo.recording_tool "delete" [] (RVal (PyStr "deleted")) in
  let pending := [("ctx", PyDict [("user_confirmed", PyBool false)]);
                  ("path", PyStr "/tmp/x")] in
  let granted := [("ctx", PyDict [("user_confirmed", PyBool true)]);
                  ("path", PyStr "/tmp/x")] in
  call (confirm (RT := Demo.runtime) "Delete {path}?" tool) [] pending world0
  = (Ok (RMsg (mkChatMessage "assistant" "Delete /tmp/x?" "confirm"
                             EmptyString true)),
     world0)
  /\ call (confirm (RT := Demo.runtime) "Delete {path}?" tool) [] granted
          world0
     = (Ok (RVal (PyStr "deleted")),
        mkWorld [] [] [mkInvocation "delete" [] granted]).
Proof.
  intros tool pending granted. split.
  - destruct (confirm_gate (RT := Demo.runtime) "Delete {path}?" tool []
                pending [("user_confirmed", PyBool false)] eq_refl)
      as [Hask _]; [discriminate|].
    destruct (Hask eq_refl) as [-> _]. reflexivity.
  - destruct (confirm_gate (RT := Demo.runtime) "Delete {path}?" tool []
                granted [("user_confirmed", PyBool true)] eq_refl)
      as [_ Hrun]; [discriminate|].
    rewrite (Hrun eq_refl). reflexivity.
Defined.

(** C1 as stated fails on an empty context mapping: [user_confirmed] reads
    false there, yet the guard runs the tool. *)
Lemma confirm_gate_counterexample :
  ~ confirm_gate_as_stated (RT := Demo.runtime) "Delete {path}?"
      (Demo.recording_tool "delete" [] (RVal (PyStr "deleted")))
      [] [("ctx", PyDict []); ("path", PyStr "/tmp/x")].
Proof.
  intros H. destruct (H [] eq_refl) as [Hask _].
  destruct (Hask eq_refl world0) as [text Hrun].
  vm_compute in Hrun. discriminate.
Qed.

(** What the tool did on that call. *)
Example confirm_empty_ctx_runs_tool :
  let kwargs := [("ctx", PyDict []); ("path", PyStr "/tmp/x")] in
  call (confirm (RT := Demo.runtime) "Delete {path}?"
          (Demo.recording_tool "delete" [] (RVal (PyStr "deleted"))))
       [] kwargs world0
  = (Ok (RVal (PyStr "deleted")),
     mkWorld [] [] [mkInvocation "delete" [] kwargs]).
Proof. reflexivity. Qed.

(** The built-in form, as the demonstration runtime formats it: the two
    JSON texts stand verbatim between the fences. *)
Lemma default_submit_template_embeds (schema_json input_json : string) :
  Demo.format_from None default_submit_template
    [("schema", PyStr schema_json); ("input", PyStr input_json)]
  = Ok (submit_form schema_json input_json).
Proof.
  cbn. reflexivity.
Qed.

Lemma length_append (a b : string) :
  String.length (a ++ b) = String.length a + String.length b.
Proof.
  induction a as [|c a IH]; [reflexivity|]. simpl. rewrite IH. reflexivity.
Qed.

Lemma embeds_length (text part : string) :
  embeds text part -> String.length part <= String.length text.
Proof.
  intros [pre [post ->]]. rewrite !length_append. lia.
Qed.

Lemma submit_gate_witness :
  let tool :=
    Demo.recording_tool "book" [] (RVal (PyStr "booked")) in
  let kwargs := [("city", PyStr "Oslo");
                 ("ctx", PyDict [("user_submitted", PyBool false)]);
                 ("nights", PyInt 2)] in
  let schema_json :=
    "{" ++ nl ++ "  " ++ dq ++ "name" ++ dq ++ ": "
    ++ dq ++ "book" ++ dq ++ nl ++ "}" in
  let input_json :=
    "{" ++ nl
    ++ "  " ++ dq ++ "city" ++ dq ++ ": " ++ dq ++ "Oslo" ++ dq ++ ","
    ++ nl
    ++ "  " ++ dq ++ "nights" ++ dq ++ ": 2" ++ nl
    ++ "}" in
  call (submit (RT := Demo.runtime) EmptyString tool) [] kwargs world0
  = (Ok (RMsg (mkChatMessage "assistant"
                 (submit_form schema_json input_json)
                 "submit" EmptyString true)),
     world0)
  /\ map fst (dict_without "ctx" kwargs) = ["city"; "nights"]
  /\ call (submit (RT := Demo.runtime) "Review: {input}" tool) [] kwargs
          world0
     = (Ok (RMsg (mkChatMessage "assistant" ("Review: " ++ input_json)
                                "submit" EmptyString true)),
        world0).
Proof.
  intros tool kwargs schema_json input_json.
  destruct (submit_gate (RT := Demo.runtime) EmptyString tool [] kwargs
              [("user_submitted", PyBool false)] eq_refl
              ltac:(discriminate) eq_refl)
    as [_ [_ [Hrun [_ [_ Hkeys]]]]].
  destruct (Hrun (PyDict [("type", PyStr "function");
                          ("function", PyDict [("name", PyStr "book")])])
                 (PyDict [("name", PyStr "book")])
                 schema_json input_json
                 eq_refl eq_refl eq_refl eq_refl) as [_ Hform].
  destruct (Hform eq_refl default_submit_template_embeds) as [Hcall _].
  destruct (submit_gate (RT := Demo.runtime) "Review: {input}" tool []
              kwargs [("user_submitted", PyBool false)] eq_refl
              ltac:(discriminate) eq_refl)
    as [_ [_ [Hrun' _]]].
  destruct (Hrun' (PyDict [("type", PyStr "function");
                           ("function", PyDict [("name", PyStr "book")])])
                  (PyDict [("name", PyStr "book")])
                  schema_json input_json
                  eq_refl eq_refl eq_refl eq_refl) as [Hcustom _].
  split; [apply Hcall|].
  split; [rewrite Hkeys; reflexivity|].
  rewrite Hcustom. reflexivity.
Defined.

(** C6 as stated fails on three calls.  On an empty context mapping
    [user_submitted] reads false, yet the guard runs the tool.  With a
    caller's template that names neither field, the content embeds neither
    JSON text.  With a caller's template that names a field the guard does
    not bind, the formatting raises and no message is returned. *)
Lemma submit_gate_counterexample :
  ~ submit_gate_as_stated (RT := Demo.runtime) EmptyString
      (Demo.recording_tool "book" [] (RVal (PyStr "booked")))
      [] [("ctx", PyDict []); ("city", PyStr "Oslo")]
  /\ ~ submit_gate_as_stated (RT := Demo.runtime) "Form"
        (Demo.recording_tool "book" [] (RVal (PyStr "booked")))
        [] [("ctx", PyDict [("user_submitted", PyBool false)]);
            ("city", PyStr "Oslo")]
  /\ ~ submit_gate_as_stated (RT := Demo.runtime) "Fill in {form}"
        (Demo.recording_tool "book" [] (RVal (PyStr "booked")))
        [] [("ctx", PyDict [("user_submitted", PyBool false)]);
            ("city", PyStr "Oslo")].
Proof.
  split; [|split]; intros H.
  - destruct (H [] eq_refl eq_refl world0)
      as [text [raw [sf [sj [ij [_ [_ [_ [_ [Hrun _]]]]]]]]]].
    vm_compute in Hrun. discriminate.
  - destruct (H [("user_submitted", PyBool false)] eq_refl eq_refl world0)
      as [text [raw [sf [sj [ij [Hraw [Hsf [Hsj [_ [Hrun [Hemb _]]]]]]]]]]].
    injection Hraw as <-. injection Hsf as <-. injection Hsj as <-.
    assert (Htext : text = "Form").
    { vm_compute in Hrun. injection Hrun as Ht. symmetry. exact Ht. }
    subst text. apply embeds_length in Hemb. vm_compute in Hemb. lia.
  - destruct (H [("user_submitted", PyBool false)] eq_refl eq_refl world0)
      as [text [raw [sf [sj [ij [_ [_ [_ [_ [Hrun _]]]]]]]]]].
    vm_compute in Hrun. discriminate.
Qed.

Example submit_custom_template_embeds_nothing :
  call (submit (RT := Demo.runtime) "Form"
          (Demo.recording_tool "book" [] (RVal (PyStr "booked"))))
       [] [("ctx", PyDict [("user_submitted", PyBool false)]);
           ("city", PyStr "Oslo")] world0
  = (Ok (RMsg (control_message "Form" "submit")), world0).
Proof. reflexivity. Qed.

Example submit_unbound_field_raises :
  call (submit (RT := Demo.runtime) "Fill in {form}"
          (Demo.recording_tool "book" [] (RVal (PyStr "booked"))))
       [] [("ctx", PyDict [("user_submitted", PyBool false)]);
           ("city", PyStr "Oslo")] world0
  = (Raised (KeyError "'form'"), world0).
Proof. reflexivity. Qed.

Example submit_empty_ctx_runs_tool :
  let kwargs := [("ctx", PyDict []); ("city", PyStr "Oslo")] in
  call (submit (RT := Demo.runtime) EmptyString
          (Demo.recording_tool "book" [] (RVal (PyStr "booked"))))
       [] kwargs world0
  = (Ok (RVal (PyStr "booked")),
     mkWorld [] [] [mkInvocation "book" [] kwargs]).
Proof. reflexivity. Qed.

Lemma gate_bypass_without_ctx_witness :
  let tool := Demo.recording_tool "delete" [] (RVal (PyStr "deleted")) in
  (call (confirm (RT := Demo.runtime) "Delete {path}?" tool) []
        [("path", PyStr "/tmp/x")]
   = call tool [] [("path", PyStr "/tmp/x")])
  /\ (call (submit (RT := Demo.runtime) EmptyString tool) []
           [("ctx", PyNone); ("path", PyStr "/tmp/x")]
      = call tool [] [("ctx", PyNone); ("path", PyStr "/tmp/x")])
  /\ (call (confirm (RT := Demo.runtime) "Delete {path}?" tool) []
           [("ctx", PyDict [])]
      = call tool [] [("ctx", PyDict [])]).
Proof.
  intros tool. split; [|split].
  - apply (gate_bypass_without_ctx (RT := Demo.runtime)). left. reflexivity.
  - apply (gate_bypass_without_ctx (RT := Demo.runtime) EmptyString tool).
    right. exists PyNone. split; reflexivity.
  - apply (gate_bypass_without_ctx (RT := Demo.runtime)). right.
    exists (PyDict []). split; reflexivity.
Defined.

(* ================================================================= *)
(** ** Error wrapping *)

Section FillDefaults.

Lemma dict_lookup_set (k k' : string) (v : pyval) (d : dict) :
  dict_lookup k' (dict_set k v d)
  = if String.eqb k' k then Some v else dict_lookup k' d.
Proof.
  destruct (String.eqb k' k) eqn:E.
  - apply String.eqb_eq in E. subst. apply dict_lookup_set_same.
  - apply String.eqb_neq in E. apply dict_lookup_set_other. congruence.
Qed.

(** Supplied arguments survive the loop. *)
Lemma fill_defaults_keeps (params : list (string * ParamDefault)) :
  forall kwargs kwargs' k v,
    fill_defaults params kwargs = Ok kwargs' ->
    dict_lookup k kwargs = Some v ->
    dict_lookup k kwargs' = Some v.
Proof.
  induction params as [|[name p] rest IH]; intros kwargs kwargs' k v Hf Hk.
  - simpl in Hf. injection Hf as <-. exact Hk.
  - simpl in Hf. destruct p as [|x|[d|]]; try (eapply IH; eassumption).
    + destruct (dict_has name kwargs) eqn:Hh; simpl in Hf;
        [eapply IH; eassumption|].
      apply dict_has_lookup in Hh.
      eapply IH; [exact Hf|]. rewrite dict_lookup_set.
      destruct (String.eqb k name) eqn:E; [|exact Hk].
      apply String.eqb_eq in E. congruence.
    + destruct (dict_has name kwargs) eqn:Hh; simpl in Hf;
        [eapply IH; eassumption|discriminate].
Qed.

(** An absent parameter declared with a field default receives it. *)
Lemma fill_defaults_sets (params : list (string * ParamDefault)) :
  NoDup (map fst params) ->
  forall kwargs kwargs' name d,
    fill_defaults params kwargs = Ok kwargs' ->
    In (name, FieldInfo (Some d)) params ->
    dict_lookup name kwargs = None ->
    dict_lookup name kwargs' = Some d.
Proof.
  induction params as [|[n0 p0] rest IH];
    intros Hnd kwargs kwargs' name d Hf Hin Habs; [destruct Hin|].
  simpl in Hnd. inversion Hnd as [|? ? Hnotin Hnd']; subst.
  destruct Hin as [Heq | Hin].
  - injection Heq as -> ->. simpl in Hf.
    apply dict_has_lookup in Habs. rewrite Habs in Hf. simpl in Hf.
    eapply fill_defaults_keeps; [exact Hf|apply dict_lookup_set_same].
  - assert (Hne : n0 <> name).
    { intros ->. apply Hnotin.
      change name with (fst (name, FieldInfo (Some d))).
      apply in_map. exact Hin. }
    simpl in Hf. destruct p0 as [|x|[d0|]];
      try (eapply IH; eassumption).
    + destruct (dict_has n0 kwargs); simpl in Hf;
        [eapply IH; eassumption|].
      eapply IH; try eassumption.
      rewrite dict_lookup_set_other; assumption.
    + destruct (dict_has n0 kwargs); simpl in Hf;
        [eapply IH; eassumption|discriminate].
Qed.

(** Nothing else enters the keyword arguments. *)
Lemma fill_defaults_only (params : list (string * ParamDefault)) :
  forall kwargs kwargs' k v,
    fill_defaults params kwargs = Ok kwargs' ->
    dict_lookup k kwargs' = Some v ->
    dict_lookup k kwargs = Some v \/ In (k, FieldInfo (Some v)) params.
Proof.
  induction params as [|[n0 p0] rest IH]; intros kwargs kwargs' k v Hf Hk.
  - simpl in Hf. injection Hf as <-. left. exact Hk.
  - simpl in Hf.
    assert (Hskip : fill_defaults rest kwargs = Ok kwargs' ->
                    dict_lookup k kwargs = Some v
                    \/ In (k, FieldInfo (Some v)) ((n0, p0) :: rest)).
    { intros Hf'. destruct (IH _ _ _ _ Hf' Hk); [left|right; right]; auto. }
    destruct p0 as [|x|[d0|]]; auto.
    + destruct (dict_has n0 kwargs); simpl in Hf; auto.
      destruct (IH _ _ _ _ Hf Hk) as [H|H]; [|right; right; exact H].
      rewrite dict_lookup_set in H.
      destruct (String.eqb k n0) eqn:E; [|left; exact H].
      apply String.eqb_eq in E. injection H as ->. subst.
      right. left. reflexivity.
    + destruct (dict_has n0 kwargs); simpl in Hf; [auto|discriminate].
Qed.

(** An absent parameter declared with a field that has no default stops
    the loop, at the first such parameter. *)
Lemma fill_defaults_raises (params : list (string * ParamDefault)) :
  NoDup (map fst params) ->
  forall kwargs name,
    In (name, FieldInfo None) params ->
    dict_lookup name kwargs = None ->
    exists name',
      In (name', FieldInfo None) params
      /\ dict_lookup name' kwargs = None
      /\ fill_defaults params kwargs
         = Raised (ValueError
                     ("Missing required argument " ++ sq ++ name' ++ sq)).
Proof.
  induction params as [|[n0 p0] rest IH];
    intros Hnd kwargs name Hin Habs; [destruct Hin|].
  simpl in Hnd. inversion Hnd as [|? ? Hnotin Hnd']; subst.
  assert (Hskip : In (name, FieldInfo None) rest ->
                  fill_defaults ((n0, p0) :: rest) kwargs
                  = fill_defaults rest kwargs ->
                  exists name',
                    In (name', FieldInfo None) ((n0, p0) :: rest)
                    /\ dict_lookup name' kwargs = None
                    /\ fill_defaults ((n0, p0) :: rest) kwargs
                       = Raised (ValueError
                           ("Missing required argument "
                            ++ sq ++ name' ++ sq))).
  { intros Hin' Heq.
    destruct (IH Hnd' kwargs name Hin' Habs) as [n' [H1 [H2 H3]]].
    exists n'. rewrite Heq. repeat split; auto. right. exact H1. }
  destruct Hin as [Heq | Hin].
  - injection Heq as -> ->. exists name. simpl.
    apply dict_has_lookup in Habs. rewrite Habs. simpl.
    apply dict_has_lookup in Habs. repeat split; auto.
  - destruct p0 as [|x|[d0|]]; try (apply Hskip; [exact Hin|reflexivity]).
    + destruct (dict_has n0 kwargs) eqn:Hh.
      * apply Hskip; [exact Hin|]. simpl. rewrite Hh. reflexivity.
      * assert (Hne : n0 <> name).
        { intros ->. apply Hnotin.
          change name with (fst (name, FieldInfo None)).
          apply in_map. exact Hin. }
        destruct (IH Hnd' (dict_set n0 d0 kwargs) name Hin)
          as [n' [H1 [H2 H3]]].
        { rewrite dict_lookup_set_other; assumption. }
        exists n'. simpl. rewrite Hh. simpl.
        repeat split; [right; exact H1| |exact H3].
        rewrite dict_lookup_set in H2.
        destruct (String.eqb n' n0); [discriminate|exact H2].
    + destruct (dict_has n0 kwargs) eqn:Hh.
      * apply Hskip; [exact Hin|]. simpl. rewrite Hh. reflexivity.
      * exists n0. simpl. rewrite Hh. simpl.
        apply dict_has_lookup in Hh. repeat split; auto.
Qed.

(** With every required field supplied the loop runs to its end. *)
Lemma fill_defaults_returns (params : list (string * ParamDefault)) :
  forall kwargs,
    (forall name,
       In (name, FieldInfo None) params ->
       dict_lookup name kwargs <> None) ->
    exists kwargs', fill_defaults params kwargs = Ok kwargs'.
Proof.
  induction params as [|[n0 p0] rest IH]; intros kwargs Hreq.
  - eexists. reflexivity.
  - assert (Hrest : forall name, In (name, FieldInfo None) rest ->
                                 dict_lookup name kwargs <> None).
    { intros name Hin. apply Hreq. right. exact Hin. }
    simpl. destruct p0 as [|x|[d0|]]; auto.
    + destruct (dict_has n0 kwargs); simpl; auto.
      apply IH. intros name Hin. rewrite dict_lookup_set.
      destruct (String.eqb name n0); [discriminate|auto].
    + destruct (dict_has n0 kwargs) eqn:Hh; simpl; auto.
      apply dict_has_lookup in Hh. exfalso.
      apply (Hreq n0); [left; reflexivity|exact Hh].
Qed.

End FillDefaults.

Section WrapError.
Variable func : Tool.
Variable args : list pyval.
Variable kwargs : dict.

Lemma wrap_error_unfold (w : World) :
  call (wrap_error func) args kwargs w
  = match fill_defaults (signature func) kwargs with
    | Ok kwargs' =>
        match call func args kwargs' w with
        | (Ok r, w') => (Ok r, w')
        | (Raised exc, w') =>
            if is_exception exc
            then (Ok (RVal (PyStr ("Error: " ++ exc_text exc))),
                  logging w' exc)
            else (Raised exc, w')
        end
    | Raised exc =>
        if is_exception exc
        then (Ok (RVal (PyStr ("Error: " ++ exc_text exc))), logging w exc)
        else (Raised exc, w)
    end.
Proof.
  unfold wrap_error. simpl. unfold try_except, bind.
  destruct (fill_defaults (signature func) kwargs) as [kwargs'|exc]; simpl.
  - destruct (call func args kwargs' w) as [[r|exc] w']; [reflexivity|].
    destruct (is_exception exc); reflexivity.
  - destruct (is_exception exc); reflexivity.
Qed.

Lemma fill_defaults_raises_exception (params : list (string * ParamDefault)) :
  forall kwargs0 exc,
    fill_defaults params kwargs0 = Raised exc -> is_exception exc = true.
Proof.
  induction params as [|[n0 p0] rest IH]; intros kwargs0 exc Hf;
    [discriminate|].
  simpl in Hf. destruct p0 as [|x|[d0|]]; try (eapply IH; eassumption).
  - destruct (dict_has n0 kwargs0); simpl in Hf; eapply IH; eassumption.
  - destruct (dict_has n0 kwargs0); simpl in Hf;
      [eapply IH; eassumption|].
    injection Hf as <-. reflexivity.
Qed.

(** C4 (amended). For a call to an error-wrapped tool whose keyword
    arguments the guard completes.  When the wrapped tool raises an
    exception that derives from Exception, with text [m], the guard logs
    the exception and returns the string "Error: " followed by [m]; the
    exception does not propagate.  When the tool returns, the guard returns
    the same result and leaves the same world.  When the tool raises
    something that does not derive from Exception (a cancellation, a
    keyboard interrupt, a system exit), the guard raises it, unlogged.  So
    the call returns whenever the tool raises nothing but exceptions that
    derive from Exception. *)
Theorem wrap_error_catches (w : World) :
  ((forall kwargs' exc w',
      fill_defaults (signature func) kwargs = Ok kwargs' ->
      call func args kwargs' w = (Raised exc, w') ->
      is_exception exc = true) ->
   exists r w', call (wrap_error func) args kwargs w = (Ok r, w'))
  /\ forall kwargs',
       fill_defaults (signature func) kwargs = Ok kwargs' ->
       (forall exc w',
          call func args kwargs' w = (Raised exc, w') ->
          is_exception exc = true ->
          call (wrap_error func) args kwargs w
          = (Ok (RVal (PyStr ("Error: " ++ exc_text exc))),
             logging w' exc))
       /\ (forall r w',
             call func args kwargs' w = (Ok r, w') ->
             call (wrap_error func) args kwargs w = (Ok r, w'))
       /\ (forall exc w',
             call func args kwargs' w = (Raised exc, w') ->
             is_exception exc = false ->
             call (wrap_error func) args kwargs w = (Raised exc, w')).
Proof.
  rewrite wrap_error_unfold. split.
  - intros Hexc.
    destruct (fill_defaults (signature func) kwargs) as [kwargs'|exc] eqn:Hf.
    + destruct (call func args kwargs' w) as [[r|exc] w'] eqn:Hc; [eauto|].
      rewrite (Hexc kwargs' exc w' eq_refl Hc). eauto.
    + rewrite (fill_defaults_raises_exception _ _ _ Hf). eauto.
  - intros kwargs' ->. split; [|split].
    + intros exc w' -> ->. reflexivity.
    + intros r w' ->. reflexivity.
    + intros exc w' -> ->. reflexivity.
Qed.

(** C9 (amended). For a tool whose parameter names are distinct.  When
    some parameter declared with a field that has no default is absent from
    the keyword arguments, the call returns the string "Error: Missing
    required argument '<name>'" for such a parameter, having logged the
    error and nothing else: the tool is not invoked.  When no such
    parameter is absent, the tool is invoked, under the error handler,
    with keyword arguments in which every supplied argument keeps its
    value, every absent parameter declared with a field default has that
    default, and nothing else was added. *)
Theorem wrap_error_fills_defaults :
  NoDup (map fst (signature func)) ->
  (forall name,
     In (name, FieldInfo None) (signature func) ->
     dict_lookup name kwargs = None ->
     exists name',
       In (name', FieldInfo None) (signature func)
       /\ dict_lookup name' kwargs = None
       /\ forall w,
            call (wrap_error func) args kwargs w
            = (Ok (RVal (PyStr ("Error: Missing required argument "
                                ++ sq ++ name' ++ sq))),
               logging w (ValueError ("Missing required argument "
                                      ++ sq ++ name' ++ sq))))
  /\ ((forall name,
         In (name, FieldInfo None) (signature func) ->
         dict_lookup name kwargs <> None) ->
      exists kwargs',
        (forall w,
           call (wrap_error func) args kwargs w
           = try_except (call func args kwargs') report_error w)
        /\ (forall name v,
              dict_lookup name kwargs = Some v ->
              dict_lookup name kwargs' = Some v)
        /\ (forall name d,
              In (name, FieldInfo (Some d)) (signature func) ->
              dict_lookup name kwargs = None ->
              dict_lookup name kwargs' = Some d)
        /\ (forall name v,
              dict_lookup name kwargs' = Some v ->
              dict_lookup name kwargs = Some v
              \/ In (name, FieldInfo (Some v)) (signature func))).
Proof.
  intros Hnd. split.
  - intros name Hin Habs.
    destruct (fill_defaults_raises _ Hnd kwargs name Hin Habs)
      as [name' [H1 [H2 H3]]].
    exists name'. repeat split; auto.
    intros w. rewrite wrap_error_unfold, H3. reflexivity.
  - intros Hreq.
    destruct (fill_defaults_returns _ kwargs Hreq) as [kwargs' Hf].
    exists kwargs'. repeat split.
    + intros w. unfold wrap_error. simpl. unfold try_except, bind.
      rewrite Hf. reflexivity.
    + intros name v. apply (fill_defaults_keeps _ _ _ _ _ Hf).
    + intros name d. apply (fill_defaults_sets _ Hnd _ _ _ _ Hf).
    + intros name v. apply (fill_defaults_only _ _ _ _ _ Hf).
Qed.

End WrapError.

Lemma wrap_error_catches_witness :
  call (wrap_error (Demo.raising_tool "parse" [] (ValueError "bad")))
       [] [("text", PyStr "x")] world0
  = (Ok (RVal (PyStr "Error: bad")),
     mkWorld [ValueError "bad"] []
             [mkInvocation "parse" [] [("text", PyStr "x")]])
  /\ call (wrap_error (Demo.recording_tool "parse" [] (RVal (PyInt 7))))
          [] [("text", PyStr "x")] world0
     = (Ok (RVal (PyInt 7)),
        mkWorld [] [] [mkInvocation "parse" [] [("text", PyStr "x")]])
  /\ call (wrap_error (Demo.raising_tool "parse" [] CancelledError))
          [] [("text", PyStr "x")] world0
     = (Raised CancelledError,
        mkWorld [] [] [mkInvocation "parse" [] [("text", PyStr "x")]]).
Proof.
  split; [|split].
  - destruct (wrap_error_catches
                (Demo.raising_tool "parse" [] (ValueError "bad"))
                [] [("text", PyStr "x")] world0) as [_ H].
    destruct (H [("text", PyStr "x")] eq_refl) as [Hraise _].
    rewrite (Hraise (ValueError "bad")
               (mkWorld [] [] [mkInvocation "parse" [] [("text", PyStr "x")]])
               eq_refl eq_refl).
    reflexivity.
  - destruct (wrap_error_catches
                (Demo.recording_tool "parse" [] (RVal (PyInt 7)))
                [] [("text", PyStr "x")] world0) as [_ H].
    destruct (H [("text", PyStr "x")] eq_refl) as [_ [Hret _]].
    apply Hret. reflexivity.
  - destruct (wrap_error_catches
                (Demo.raising_tool "parse" [] CancelledError)
                [] [("text", PyStr "x")] world0) as [_ H].
    destruct (H [("text", PyStr "x")] eq_refl) as [_ [_ Hpass]].
    apply Hpass; reflexivity.
Defined.

(** C4 as stated fails for a tool that is cancelled: CancelledError does
    not derive from Exception, so the guard neither logs it nor turns it
    into a string; it reaches the caller. *)
Lemma wrap_error_catches_counterexample :
  ~ wrap_error_as_stated (Demo.raising_tool "parse" [] CancelledError)
      [] [("text", PyStr "x")] world0.
Proof.
  intros H.
  destruct (H [("text", PyStr "x")] CancelledError
              (mkWorld [] [] [mkInvocation "parse" [] [("text", PyStr "x")]])
              eq_refl eq_refl) as [w'' Hrun].
  vm_compute in Hrun. discriminate.
Qed.

Lemma wrap_error_fills_defaults_witness :
  let sig := [("city", FieldInfo None);
              ("nights", FieldInfo (Some (PyInt 1)));
              ("note", Plain (PyStr "-"))] in
  let tool := Demo.def_tool "book" sig (RVal (PyStr "booked")) in
  (exists name',
     In (name', FieldInfo None) sig
     /\ call (wrap_error tool) [] [("nights", PyInt 3)] world0
        = (Ok (RVal (PyStr ("Error: Missing required argument "
                            ++ sq ++ name' ++ sq))),
           mkWorld [ValueError ("Missing required argument "
                                ++ sq ++ name' ++ sq)] [] []))
  /\ (exists kwargs',
        call (wrap_error tool) [] [("city", PyStr "Oslo")] world0
        = try_except (call tool [] kwargs') report_error world0
        /\ dict_lookup "city" kwargs' = Some (PyStr "Oslo")
        /\ dict_lookup "nights" kwargs' = Some (PyInt 1)).
Proof.
  intros sig tool.
  assert (Hnd : NoDup (map fst (signature tool))).
  { simpl. repeat constructor; simpl; intuition discriminate. }
  split.
  - destruct (wrap_error_fills_defaults tool [] [("nights", PyInt 3)] Hnd)
      as [Hmiss _].
    destruct (Hmiss "city") as [name' [Hin [_ Hrun]]];
      [simpl; tauto|reflexivity|].
    exists name'. split; [exact Hin|apply Hrun].
  - destruct (wrap_error_fills_defaults tool [] [("city", PyStr "Oslo")] Hnd)
      as [_ Hfill].
    destruct Hfill as [kwargs' [Hrun [Hkeep [Hset _]]]].
    + intros name Hin. simpl in Hin.
      destruct Hin as [H|[H|[H|[]]]]; try discriminate.
      injection H as <-. discriminate.
    + exists kwargs'. split; [apply Hrun|]. split.
      * apply Hkeep. reflexivity.
      * apply Hset; [simpl; tauto|reflexivity].
Defined.

(** C9 as stated fails for a parameter declared with no default and no
    field: the guard's loop passes it by, the call goes to the function,
    and what comes back is the text of Python's own TypeError, not the
    "Missing required argument" text. *)
Lemma wrap_error_fills_defaults_counterexample :
  ~ missing_required_as_stated
      (Demo.def_tool "book" [("city", Empty)] (RVal (PyStr "booked")))
      [] [] world0.
Proof.
  intros H.
  destruct (H "city" (or_introl (or_introl eq_refl)) eq_refl)
    as [name' [w' Hrun]].
  vm_compute in Hrun. discriminate.
Qed.

Example wrap_error_plain_required_missing :
  call (wrap_error
          (Demo.def_tool "book" [("city", Empty)] (RVal (PyStr "booked"))))
       [] [] world0
  = (Ok (RVal (PyStr
           "Error: book() missing 1 required positional argument: 'city'")),
     mkWorld
       [TypeError "book() missing 1 required positional argument: 'city'"]
       [] []).
Proof. reflexivity. Qed.

Example wrap_error_missing_required :
  call (wrap_error
          (Demo.def_tool "book"
             [("city", FieldInfo None); ("nights", FieldInfo (Some (PyInt 1)))]
             (RVal (PyStr "booked"))))
       [] [("nights", PyInt 3)] world0
  = (Ok (RVal (PyStr "Error: Missing required argument 'city'")),
     mkWorld [ValueError "Missing required argument 'city'"] [] []).
Proof. reflexivity. Qed.

Example wrap_error_default_filled :
  call (wrap_error
          (Demo.def_tool "book"
             [("city", FieldInfo None); ("nights", FieldInfo (Some (PyInt 1)))]
             (RVal (PyStr "booked"))))
       [] [("city", PyStr "Oslo")] world0
  = (Ok (RVal (PyStr "booked")),
     mkWorld [] []
       [mkInvocation "book" []
          [("city", PyStr "Oslo"); ("nights", PyInt 1)]]).
Proof. reflexivity. Qed.

(* ================================================================= *)
(** ** Gating state: user_confirmed *)

Section UserConfirmed.
Local Open Scope list_scope.

Lemma has_confirm_message_iff (history : ChatHistory) :
  _has_confirm_message history = true <-> replies_to_confirm history.
Proof.
  unfold _has_confirm_message, replies_to_confirm. split.
  - intros H. apply andb_true_iff in H. destruct H as [_ H].
    destruct (penultimate_opt (messages history)) as [c|] eqn:E;
      [|discriminate].
    apply String.eqb_eq in H.
    destruct (penultimate_opt_Some _ _ E) as [init [m Hm]].
    exists init, c, m. auto.
  - intros [init [c [m [Hm Hc]]]]. rewrite Hm.
    rewrite penultimate_opt_snoc2, length_app, Hc. simpl.
    apply andb_true_iff. split; [apply Nat.ltb_lt; lia|reflexivity].
Qed.

Lemma last_message_snoc (history : ChatHistory) (init : list ChatMessage)
    (m : ChatMessage) :
  messages history = init ++ [m] -> last_message history = Ok m.
Proof.
  intros H. unfold last_message. rewrite H, last_opt_snoc. reflexivity.
Qed.

Variable client : ModelClient.
Variable history : ChatHistory.
Variable w : World.

(** C2 (amended). [update_user_confirmed] touches nothing but the
    extensions.  When the history does not reply to a confirmation prompt
    it returns with [user_confirmed] false, whatever the flag was.  When
    the history replies to a confirmation prompt and the flag was already
    true on entry, it returns with the flag still true and the classifier
    is not consulted.  When the history replies to a confirmation prompt
    and the flag was false on entry, the classifier runs on the content of
    the last message: its answer becomes the flag, and what it raises is
    raised. *)
Theorem update_user_confirmed_spec :
  (~ replies_to_confirm history ->
   exists history',
     update_user_confirmed client history w = (Ok history', w)
     /\ messages history' = messages history
     /\ truthy (user_confirmed (extensions history')) = false)
  /\ (replies_to_confirm history ->
      truthy (user_confirmed (extensions history)) = true ->
      exists history',
        update_user_confirmed client history w = (Ok history', w)
        /\ messages history' = messages history
        /\ truthy (user_confirmed (extensions history')) = true)
  /\ (forall init c m,
        messages history = init ++ [c; m] ->
        type c = "confirm" ->
        truthy (user_confirmed (extensions history)) = false ->
        match is_user_confirmed (content m) client w with
        | (Ok b, w') =>
            exists history',
              update_user_confirmed client history w = (Ok history', w')
              /\ messages history' = messages history
              /\ user_confirmed (extensions history') = PyBool b
        | (Raised e, w') =>
            update_user_confirmed client history w = (Raised e, w')
        end).
Proof.
  unfold update_user_confirmed. split; [|split].
  - intros Hno.
    assert (Hh : _has_confirm_message history = false).
    { destruct (_has_confirm_message history) eqn:E; [|reflexivity].
      apply has_confirm_message_iff in E. contradiction. }
    rewrite Hh. simpl.
    destruct (truthy (user_confirmed (extensions history))) eqn:Hp;
      eexists; (split; [reflexivity|]); simpl;
      unfold set_user_confirmed, user_confirmed at 1;
      rewrite dict_get_set_same; auto.
  - intros Hyes Hp. apply has_confirm_message_iff in Hyes.
    rewrite Hyes, Hp. simpl.
    eexists. split; [reflexivity|]. simpl.
    unfold set_user_confirmed, user_confirmed at 1.
    rewrite dict_get_set_same. auto.
  - intros init c m Hm Hc Hp.
    assert (Hyes : _has_confirm_message history = true).
    { apply has_confirm_message_iff. exists init, c, m. auto. }
    assert (Hlast : last_message history = Ok m).
    { apply (last_message_snoc history (init ++ [c])).
      rewrite Hm, <- app_assoc. reflexivity. }
    rewrite Hyes, Hp, Hlast. simpl. unfold bind, ret.
    destruct (is_user_confirmed (content m) client w) as [[b|e] w'];
      [|reflexivity].
    eexists. split; [reflexivity|]. simpl.
    unfold set_user_confirmed, user_confirmed.
    rewrite dict_get_set_same. auto.
Qed.

End UserConfirmed.

Lemma update_user_confirmed_spec_witness :
  let prompt := control_message "Delete /tmp/x?" "confirm" in
  let said (text : string) :=
    mkChatMessage "user" text EmptyString EmptyString false in
  let client := Demo.constant_client "false" in
  (exists h,
     update_user_confirmed client
       (mkChatHistory [prompt; said "yes"] None []) world0 = (Ok h, world0)
     /\ user_confirmed (extensions h) = PyBool true)
  /\ (exists h,
        update_user_confirmed client
          (mkChatHistory [prompt; said "no"] None []) world0 = (Ok h, world0)
        /\ user_confirmed (extensions h) = PyBool false)
  /\ (exists h,
        update_user_confirmed client
          (mkChatHistory [said "hello"] None [("user_confirmed", PyBool true)])
          world0 = (Ok h, world0)
        /\ truthy (user_confirmed (extensions h)) = false).
Proof.
  intros prompt said client. split; [|split].
  - destruct (update_user_confirmed_spec client
                (mkChatHistory [prompt; said "yes"] None []) world0)
      as [_ [_ H]].
    specialize (H [] prompt (said "yes") eq_refl eq_refl eq_refl).
    simpl in H. destruct H as [h [H1 [_ H2]]]. exists h. auto.
  - destruct (update_user_confirmed_spec client
                (mkChatHistory [prompt; said "no"] None []) world0)
      as [_ [_ H]].
    specialize (H [] prompt (said "no") eq_refl eq_refl eq_refl).
    simpl in H. destruct H as [h [H1 [_ H2]]]. exists h. auto.
  - destruct (update_user_confirmed_spec client
                (mkChatHistory [said "hello"] None
                               [("user_confirmed", PyBool true)]) world0)
      as [H _].
    destruct H as [h [H1 [_ H2]]]; [|exists h; auto].
    intros [init [c [m [Hm _]]]]. simpl in Hm.
    destruct init as [|x [|y t]]; discriminate.
Defined.

(** C2 as stated fails when the flag is already true and the user answers
    "no" to the confirmation prompt: the flag stays true although the
    classification of "no" is not affirmative. *)
Lemma update_user_confirmed_counterexample :
  ~ confirmed_rule_as_stated (Demo.constant_client "false")
      (mkChatHistory
         [control_message "Delete /tmp/x?" "confirm";
          mkChatMessage "user" "no" EmptyString EmptyString false]
         None [("user_confirmed", PyBool true)])
      world0.
Proof.
  intros H.
  destruct (H _ _ eq_refl) as [Hto _].
  destruct (Hto eq_refl) as [init [c [m [Hm [_ Hyes]]]]].
  simpl in Hm.
  assert (Hmsg : m = mkChatMessage "user" "no" EmptyString EmptyString false).
  { destruct init as [|x [|y t]]; simpl in Hm; try discriminate.
    - injection Hm as _ <-. reflexivity.
    - injection Hm as _ _ Habs. destruct t; discriminate. }
  subst m. vm_compute in Hyes. discriminate.
Qed.

Example update_user_confirmed_keeps_flag_on_no :
  fst (update_user_confirmed (Demo.constant_client "false")
         (mkChatHistory
            [control_message "Delete /tmp/x?" "confirm";
             mkChatMessage "user" "no" EmptyString EmptyString false]
            None [("user_confirmed", PyBool true)])
         world0)
  = Ok (mkChatHistory
          [control_message "Delete /tmp/x?" "confirm";
           mkChatMessage "user" "no" EmptyString EmptyString false]
          None [("user_confirmed", PyBool true)]).
Proof. reflexivity. Qed.

(* ================================================================= *)
(** ** The specification's wordings on ordinary calls *)

(** Each wording that a call above refutes does hold on an ordinary
    call. *)
Example wrap_error_as_stated_on_value_error :
  wrap_error_as_stated (Demo.raising_tool "parse" [] (ValueError "bad"))
    [] [("text", PyStr "x")] world0.
Proof.
  intros kwargs' exc w' Hf Hc. injection Hf as <-.
  injection Hc as <- <-. eexists. reflexivity.
Qed.

Example missing_required_as_stated_on_field :
  missing_required_as_stated
    (Demo.def_tool "book" [("city", FieldInfo None)] (RVal (PyStr "booked")))
    [] [] world0.
Proof.
  intros name Hin _. exists "city". eexists. reflexivity.
Qed.

Example classifier_as_stated_on_answer :
  classifier_as_stated "sure, go ahead" (Demo.constant_client "true") world0.
Proof.
  intros _. eexists. eexists. reflexivity.
Qed.

Example submit_gate_as_stated_on_default_form :
  submit_gate_as_stated (RT := Demo.runtime) EmptyString
    (Demo.recording_tool "book" [] (RVal (PyStr "booked")))
    [] [("ctx", PyDict [("user_submitted", PyBool false)]);
        ("city", PyStr "Oslo")].
Proof.
  intros ctx Hctx Hflag w.
  exists (submit_form
            (Demo.dumps 0 (PyDict [("name", PyStr "book")]))
            (Demo.dumps 0 (PyDict [("city", PyStr "Oslo")]))).
  do 4 eexists.
  split; [reflexivity|]. split; [reflexivity|]. split; [reflexivity|].
  split; [reflexivity|].
  split; [|apply submit_form_embeds].
  injection Hctx as <-. reflexivity.
Qed.

(* ================================================================= *)
(** ** Further properties: RunContext and the gating refresh *)

(** X1. The two flags of a RunContext are independent cells: reading a
    flag after setting it gives the value set, and setting one flag leaves
    the other as it reads. *)
Theorem RunContext_flags_roundtrip (ctx : dict) (v : pyval) :
  user_confirmed (set_user_confirmed ctx v) = v
  /\ user_submitted (set_user_submitted ctx v) = v
  /\ user_submitted (set_user_confirmed ctx v) = user_submitted ctx
  /\ user_confirmed (set_user_submitted ctx v) = user_confirmed ctx.
Proof.
  unfold user_confirmed, user_submitted, set_user_confirmed,
    set_user_submitted, dict_get.
  rewrite !dict_lookup_set_same.
  rewrite !dict_lookup_set_other by discriminate.
  repeat split; reflexivity.
Qed.

Lemma update_user_confirmed_shape (client : ModelClient)
    (history h1 : ChatHistory) (w w1 : World) :
  update_user_confirmed client history w = (Ok h1, w1) ->
  exists v,
    h1 = set_extensions history
           (set_user_confirmed (extensions history) v).
Proof.
  unfold update_user_confirmed, bind.
  destruct (truthy (user_confirmed (extensions history)));
    destruct (_has_confirm_message history); simpl;
    try (intros H; injection H as <- _; eexists; reflexivity).
  destruct (last_message history) as [m|e]; simpl; [|discriminate].
  unfold ret.
  destruct (is_user_confirmed (content m) client w) as [[b|e] w'];
    [|discriminate].
  intros H; injection H as <- _; eexists; reflexivity.
Qed.

Lemma dict_set_absent (k : string) (v : pyval) (d : dict) :
  dict_lookup k d = None -> dict_set k v d = (d ++ [(k, v)])%list.
Proof.
  induction d as [|[k' v'] d IH]; simpl; [reflexivity|].
  destruct (String.eqb k k'); [discriminate|].
  intros H. rewrite (IH H). reflexivity.
Qed.

Lemma dict_lookup_In_keys (k : string) (d : dict) :
  dict_lookup k d = None <-> ~ In k (map fst d).
Proof.
  induction d as [|[k' v'] d IH]; simpl; [tauto|].
  destruct (String.eqb k k') eqn:E.
  - apply String.eqb_eq in E. subst. split; [discriminate|tauto].
  - apply String.eqb_neq in E. rewrite IH. split.
    + intros H [H'|H']; [congruence|tauto].
    + tauto.
Qed.

Lemma dict_set_keys (k : string) (v : pyval) (d : dict) :
  map fst (dict_set k v d)
  = if dict_has k d then map fst d else (map fst d ++ [k])%list.
Proof.
  unfold dict_has.
  induction d as [|[k' v'] d IH]; simpl; [reflexivity|].
  destruct (String.eqb k k') eqn:E; simpl; [reflexivity|].
  rewrite IH. destruct (dict_lookup k d); reflexivity.
Qed.

Lemma dict_set_NoDup (k : string) (v : pyval) (d : dict) :
  NoDup (map fst d) -> NoDup (map fst (dict_set k v d)).
Proof.
  intros H. rewrite dict_set_keys.
  destruct (dict_has k d) eqn:E; [exact H|].
  apply dict_has_lookup, dict_lookup_In_keys in E.
  apply NoDup_app; [exact H|repeat constructor; intros []|].
  intros x Hx [<-|[]]. exact (E Hx).
Qed.

(** X2. The refresh at the head of a turn: when the [user_confirmed]
    update returns, the [user_submitted] update returns in the same world,
    and the history then has the messages and reply address it came with,
    both flags present in its extensions, every other extension as it was,
    and no key twice if none was twice before. *)
Theorem gating_refresh_keeps_extensions (client : ModelClient)
    (history h1 : ChatHistory) (w w1 : World) :
  update_user_confirmed client history w = (Ok h1, w1) ->
  exists h2,
    update_user_submitted h1 w1 = (Ok h2, w1)
    /\ messages h2 = messages history
    /\ reply h2 = reply history
    /\ dict_lookup "user_submitted" (extensions h2)
       = Some (PyBool (_is_submit_message history))
    /\ dict_lookup "user_confirmed" (extensions h2)
       = Some (user_confirmed (extensions h1))
    /\ (forall k,
          k <> "user_confirmed" -> k <> "user_submitted" ->
          dict_lookup k (extensions h2) = dict_lookup k (extensions history))
    /\ (NoDup (map fst (extensions history)) ->
        NoDup (map fst (extensions h2))).
Proof.
  intros H. destruct (update_user_confirmed_shape _ _ _ _ _ H) as [v ->].
  eexists. split; [reflexivity|]. simpl.
  unfold set_user_submitted, set_user_confirmed, user_confirmed, dict_get,
    _is_submit_message. simpl.
  repeat split.
  - apply dict_lookup_set_same.
  - rewrite dict_lookup_set_other by discriminate.
    rewrite !dict_lookup_set_same. reflexivity.
  - intros k Hc Hs.
    rewrite !dict_lookup_set_other by congruence. reflexivity.
  - intros Hnd. apply dict_set_NoDup, dict_set_NoDup, Hnd.
Qed.

Lemma gating_refresh_keeps_extensions_witness :
  let history :=
    mkChatHistory
      [control_message "Delete /tmp/x?" "confirm";
       mkChatMessage "user" "ok" "submit" EmptyString false]
      None [("locale", PyStr "nb")] in
  exists h1 h2,
    update_user_confirmed (Demo.constant_client "false") history world0
    = (Ok h1, world0)
    /\ update_user_submitted h1 world0 = (Ok h2, world0)
    /\ dict_lookup "locale" (extensions h2) = Some (PyStr "nb")
    /\ dict_lookup "user_submitted" (extensions h2) = Some (PyBool true).
Proof.
  intros history.
  eexists.
  destruct (gating_refresh_keeps_extensions
              (Demo.constant_client "false") history
              (set_extensions history
                 (set_user_confirmed (extensions history) (PyBool true)))
              world0 world0 eq_refl)
    as [h2 [Hrun [_ [_ [Hsub [_ [Hkeep _]]]]]]].
  exists h2. split; [reflexivity|]. split; [exact Hrun|]. split.
  - rewrite Hkeep by discriminate. reflexivity.
  - rewrite Hsub. reflexivity.
Defined.

(* ================================================================= *)
(** ** Further properties: default filling and stacked guards *)

(** X3. When the default-filling loop of [wrap_error] runs to its end,
    the keyword arguments it leaves are the supplied ones, untouched and in
    their order, followed by the added defaults; every added pair is the
    field default of a declared parameter that was absent from the call,
    and no key occurs twice if none did in the call. *)
Theorem fill_defaults_appends (params : list (string * ParamDefault)) :
  forall kwargs kwargs',
    fill_defaults params kwargs = Ok kwargs' ->
    exists added,
      kwargs' = (kwargs ++ added)%list
      /\ (forall k v,
            In (k, v) added ->
            dict_lookup k kwargs = None
            /\ In (k, FieldInfo (Some v)) params)
      /\ (NoDup (map fst kwargs) -> NoDup (map fst kwargs')).
Proof.
  induction params as [|[n0 p0] rest IH]; intros kwargs kwargs' Hf.
  - simpl in Hf. injection Hf as <-. exists []. rewrite app_nil_r.
    split; [reflexivity|]. split; [intros k v []|auto].
  - assert (Hskip : fill_defaults rest kwargs = Ok kwargs' ->
                    exists added,
                      kwargs' = (kwargs ++ added)%list
                      /\ (forall k v,
                            In (k, v) added ->
                            dict_lookup k kwargs = None
                            /\ In (k, FieldInfo (Some v)) ((n0, p0) :: rest))
                      /\ (NoDup (map fst kwargs) ->
                          NoDup (map fst kwargs'))).
    { intros Hf'. destruct (IH _ _ Hf') as [added [H1 [H2 H3]]].
      exists added. split; [exact H1|]. split; [|exact H3].
      intros k v Hin. destruct (H2 _ _ Hin) as [Ha Hb].
      split; [exact Ha|right; exact Hb]. }
    simpl in Hf. destruct p0 as [|x|[d0|]]; auto.
    + destruct (dict_has n0 kwargs) eqn:Hh; simpl in Hf; auto.
      apply dict_has_lookup in Hh.
      destruct (IH _ _ Hf) as [added [H1 [H2 H3]]].
      rewrite (dict_set_absent _ _ _ Hh) in H1, H2, H3.
      exists ((n0, d0) :: added). split; [|split].
      * rewrite H1, <- app_assoc. reflexivity.
      * intros k v [Heq|Hin].
        -- injection Heq as <- <-. split; [exact Hh|left; reflexivity].
        -- destruct (H2 _ _ Hin) as [Ha Hb]. split; [|right; exact Hb].
           apply dict_lookup_In_keys. apply dict_lookup_In_keys in Ha.
           intros Hk. apply Ha. rewrite map_app. apply in_or_app. tauto.
      * intros Hnd. apply H3. rewrite map_app. simpl.
        apply NoDup_app; [exact Hnd|repeat constructor; intros []|].
        intros y Hy [<-|[]].
        apply dict_lookup_In_keys in Hh. exact (Hh Hy).
    + destruct (dict_has n0 kwargs); simpl in Hf; [auto|discriminate].
Qed.

Lemma fill_defaults_appends_witness :
  let sig := [("city", FieldInfo None);
              ("nights", FieldInfo (Some (PyInt 1)));
              ("rooms", FieldInfo (Some (PyInt 1)))] in
  let kwargs := [("rooms", PyInt 2); ("city", PyStr "Oslo")] in
  exists added,
    fill_defaults sig kwargs = Ok (kwargs ++ added)%list
    /\ forall k v, In (k, v) added -> dict_lookup k kwargs = None.
Proof.
  intros sig kwargs.
  destruct (fill_defaults_appends sig kwargs
              [("rooms", PyInt 2); ("city", PyStr "Oslo");
               ("nights", PyInt 1)] eq_refl)
    as [added [Heq [Hadded _]]].
  exists added. split.
  - rewrite <- Heq. reflexivity.
  - intros k v Hin. exact (proj1 (Hadded k v Hin)).
Defined.

Section StackedGuards.
Context {RT : Runtime}.
Variable func : Tool.
Variable args : list pyval.
Variable kwargs : dict.
Variable ctx : dict.
Hypothesis Hctx : dict_lookup "ctx" kwargs = Some (PyDict ctx).
Hypothesis Hne : ctx <> [].

Lemma submit_unfold_any (template : string) :
  call (submit template func) args kwargs
  = if negb (truthy (user_submitted ctx)) then
      (raw <- lift (jsonschema func) ;;
       schema_fn <- lift (getitem raw "function") ;;
       schema_json <- lift (json_dumps schema_fn) ;;
       input_json <- lift (json_dumps (PyDict (dict_without "ctx" kwargs))) ;;
       text <- lift (str_format
                       (if String.eqb template EmptyString
                        then default_submit_template else template)
                       [("schema", PyStr schema_json);
                        ("input", PyStr input_json)]) ;;
       ret (RMsg (control_message text "submit")))
    else call func args kwargs.
Proof.
  unfold submit. simpl. unfold dict_get.
  rewrite Hctx, (truthy_nonempty ctx Hne). simpl.
  destruct (String.eqb template EmptyString); reflexivity.
Qed.

(** X4. A tool guarded by [confirm] over [submit], called with a
    non-empty context mapping: it runs the tool when both flags read true;
    when either flag reads false the outcome is the same for any other tool
    body behind the same signature and schema, so the tool takes no part;
    and with [user_confirmed] false the confirmation prompt comes first,
    whatever [user_submitted] reads. *)
Theorem stacked_guards_need_both_flags (t_confirm t_submit : string) :
  (truthy (user_confirmed ctx) = true ->
   truthy (user_submitted ctx) = true ->
   call (confirm t_confirm (submit t_submit func)) args kwargs
   = call func args kwargs)
  /\ (truthy (user_confirmed ctx) && truthy (user_submitted ctx) = false ->
      forall body,
        call (confirm t_confirm (submit t_submit func)) args kwargs
        = call (confirm t_confirm
                  (submit t_submit
                     (mkTool (signature func) (jsonschema func) body)))
               args kwargs)
  /\ (truthy (user_confirmed ctx) = false ->
      call (confirm t_confirm (submit t_submit func)) args kwargs
      = match str_format t_confirm kwargs with
        | Ok text => ret (RMsg (control_message text "confirm"))
        | Raised e => raise e
        end).
Proof.
  split; [|split].
  - intros Hc Hs.
    rewrite (confirm_unfold t_confirm _ args kwargs ctx Hctx Hne), Hc.
    cbn [negb]. rewrite submit_unfold_any, Hs. reflexivity.
  - intros Hflags body.
    rewrite !(confirm_unfold t_confirm _ args kwargs ctx Hctx Hne).
    destruct (truthy (user_confirmed ctx)); simpl; [|reflexivity].
    simpl in Hflags. unfold submit. simpl. unfold dict_get.
    rewrite Hctx, (truthy_nonempty ctx Hne). simpl.
    rewrite Hflags. reflexivity.
  - intros Hc.
    rewrite (confirm_unfold t_confirm _ args kwargs ctx Hctx Hne), Hc. simpl.
    destruct (str_format t_confirm kwargs); reflexivity.
Qed.

(** X5. A confirm-guarded tool behind [wrap_error], called with a
    non-empty context mapping whose [user_confirmed] reads false and with
    every required field supplied: the template is formatted with the
    keyword arguments as completed with defaults; the confirmation message
    comes back as a message, not as text, and nothing is logged; an
    exception deriving from Exception that the formatting raises comes back
    as an "Error: ..." string after being logged (anything else it raised
    would pass through).  The tool is not invoked. *)
Theorem wrap_error_over_confirm (template : string) (kwargs' : dict) :
  truthy (user_confirmed ctx) = false ->
  fill_defaults (signature func) kwargs = Ok kwargs' ->
  forall w,
    call (wrap_error (confirm template func)) args kwargs w
    = match str_format template kwargs' with
      | Ok text => (Ok (RMsg (control_message text "confirm")), w)
      | Raised e =>
          if is_exception e
          then (Ok (RVal (PyStr ("Error: " ++ exc_text e))), logging w e)
          else (Raised e, w)
      end.
Proof.
  intros Hflag Hfill w. rewrite wrap_error_unfold. simpl signature.
  rewrite Hfill.
  assert (Hctx' : dict_lookup "ctx" kwargs' = Some (PyDict ctx)).
  { eapply fill_defaults_keeps; eassumption. }
  rewrite (confirm_unfold template func args kwargs' ctx Hctx' Hne), Hflag.
  simpl. destruct (str_format template kwargs'); reflexivity.
Qed.

End StackedGuards.

Lemma stacked_guards_need_both_flags_witness :
  let tool := Demo.recording_tool "book" [] (RVal (PyStr "booked")) in
  let both := [("ctx", PyDict [("user_confirmed", PyBool true);
                               ("user_submitted", PyBool true)]);
               ("city", PyStr "Oslo")] in
  let one := [("ctx", PyDict [("user_submitted", PyBool true)]);
              ("city", PyStr "Oslo")] in
  call (confirm (RT := Demo.runtime) "Book {city}?"
          (submit (RT := Demo.runtime) EmptyString tool)) [] both world0
  = (Ok (RVal (PyStr "booked")),
     mkWorld [] [] [mkInvocation "book" [] both])
  /\ call (confirm (RT := Demo.runtime) "Book {city}?"
             (submit (RT := Demo.runtime) EmptyString tool)) [] one world0
     = (Ok (RMsg (control_message "Book Oslo?" "confirm")), world0).
Proof.
  intros tool both one. split.
  - destruct (stacked_guards_need_both_flags (RT := Demo.runtime) tool []
                both [("user_confirmed", PyBool true);
                      ("user_submitted", PyBool true)] eq_refl)
      with (t_confirm := "Book {city}?") (t_submit := EmptyString)
      as [Hrun _]; [discriminate|].
    rewrite (Hrun eq_refl eq_refl). reflexivity.
  - destruct (stacked_guards_need_both_flags (RT := Demo.runtime) tool []
                one [("user_submitted", PyBool true)] eq_refl)
      with (t_confirm := "Book {city}?") (t_submit := EmptyString)
      as [_ [_ Hask]]; [discriminate|].
    rewrite (Hask eq_refl). reflexivity.
Defined.

Lemma wrap_error_over_confirm_witness :
  let sig := [("ctx", Empty); ("city", FieldInfo None);
              ("nights", FieldInfo (Some (PyInt 1)))] in
  let tool := Demo.recording_tool "book" sig (RVal (PyStr "booked")) in
  let kwargs := [("ctx", PyDict [("user_confirmed", PyBool false)]);
                 ("city", PyStr "Oslo")] in
  call (wrap_error
          (confirm (RT := Demo.runtime) "Book {city} for {nights}?" tool))
       [] kwargs world0
  = (Ok (RMsg (control_message "Book Oslo for 1?" "confirm")), world0)
  /\ call (wrap_error
             (confirm (RT := Demo.runtime) "Book {town}?" tool))
          [] kwargs world0
     = (Ok (RVal (PyStr "Error: 'town'")),
        mkWorld [KeyError "'town'"] [] []).
Proof.
  intros sig tool kwargs. split.
  - rewrite (wrap_error_over_confirm (RT := Demo.runtime) tool [] kwargs
               [("user_confirmed", PyBool false)] eq_refl
               ltac:(discriminate) "Book {city} for {nights}?"
               (kwargs ++ [("nights", PyInt 1)])%list eq_refl eq_refl).
    reflexivity.
  - rewrite (wrap_error_over_confirm (RT := Demo.runtime) tool [] kwargs
               [("user_confirmed", PyBool false)] eq_refl
               ltac:(discriminate) "Book {town}?"
               (kwargs ++ [("nights", PyInt 1)])%list eq_refl eq_refl).
    reflexivity.
Defined.

(* ================================================================= *)
(** ** Further properties: Sequential start-up *)

Section SequentialStarted.
Import Sequential SequentialStart.
Local Open Scope list_scope.

Variable self : Sequential.

Lemma published_app (w : World) (ps qs : list Publication) :
  published (published w ps) qs = published w (ps ++ qs).
Proof. unfold published. simpl. rewrite app_assoc. reflexivity. Qed.

Lemma published_nil (w : World) : published w [] = w.
Proof. unfold published. rewrite app_nil_r. destruct w; reflexivity. Qed.

Lemma item_app (pre suf : list string) (x : string) :
  item (pre ++ x :: suf) (length pre) = Ok x.
Proof.
  unfold item. rewrite nth_error_app2 by lia.
  rewrite Nat.sub_diag. reflexivity.
Qed.

Lemma item_app_next (pre suf : list string) (x y : string) :
  item (pre ++ x :: y :: suf) (length pre + 1) = Ok y.
Proof.
  unfold item. rewrite nth_error_app2 by lia.
  replace (length pre + 1 - length pre) with 1 by lia. reflexivity.
Qed.

Lemma wire_step (pre t : list string) (a b : string) (rest : list nat)
    (w : World) :
  _agent_types self = pre ++ a :: b :: t ->
  wire self (length pre :: rest) w
  = wire self rest
      (published w
         [mkPublication (mkAddress a (id (address (base self))))
            (EncSetReplyAgent (mkAddress b (id (address (base self)))))
            false]).
Proof.
  intros Htypes. simpl wire. unfold bind.
  rewrite Htypes, item_app, item_app_next. reflexivity.
Qed.

Lemma wire_chain (suf : list string) :
  forall pre w,
    _agent_types self = pre ++ suf ->
    wire self (seq (length pre) (length suf - 1)) w
    = (Ok tt, published w (chain (id (address (base self))) suf)).
Proof.
  induction suf as [|a suf IH]; intros pre w Htypes.
  - simpl. rewrite published_nil. reflexivity.
  - destruct suf as [|b t].
    + simpl. rewrite published_nil. reflexivity.
    + replace (length (a :: b :: t) - 1) with (S (length t)) by (simpl; lia).
      simpl seq. rewrite (wire_step pre t a b _ w Htypes).
      specialize (IH (pre ++ [a])).
      rewrite length_app in IH. simpl length in IH.
      replace (length pre + 1) with (S (length pre)) in IH by lia.
      replace (S (length t) - 1) with (length t) in IH by lia.
      rewrite IH by (rewrite Htypes, <- app_assoc; reflexivity).
      rewrite published_app. reflexivity.
Qed.

Lemma started_chain (w : World) :
  started self w
  = (Ok tt,
     published w (chain (id (address (base self))) (_agent_types self))).
Proof. apply (wire_chain (_agent_types self) [] w). reflexivity. Qed.



Lemma chain_cons (sid a b : string) (t : list string) :
  chain sid (a :: b :: t)
  = mkPublication (mkAddress a sid) (EncSetReplyAgent (mkAddress b sid))
                  false :: chain sid (b :: t).
Proof. reflexivity. Qed.

Lemma last_nonempty (x d d' : string) (l : list string) :
  last (x :: l) d = last (x :: l) d'.
Proof.
  revert x. induction l as [|y l IH]; intros x; [reflexivity|].
  change (last (x :: y :: l) d) with (last (y :: l) d).
  change (last (x :: y :: l) d') with (last (y :: l) d').
  apply IH.
Qed.

Lemma chain_targets (sid first : string) (rest : list string) :
  map target (chain sid (first :: rest))
  ++ [mkAddress (last (first :: rest) first) sid]
  = map (fun n => mkAddress n sid) (first :: rest).
Proof.
  revert first. induction rest as [|b t IH]; intros first; [reflexivity|].
  rewrite chain_cons.
  change (last (first :: b :: t) first) with (last (b :: t) first).
  rewrite (last_nonempty b first b t).
  cbn [map app target]. f_equal. apply (IH b).
Qed.

Lemma chain_payloads (sid first : string) (rest : list string) :
  map payload (chain sid (first :: rest))
  = map (fun n => EncSetReplyAgent (mkAddress n sid)) rest.
Proof.
  revert first. induction rest as [|b t IH]; intros first; [reflexivity|].
  rewrite chain_cons. cbn [map payload]. f_equal. apply IH.
Qed.


(** X7. Start-up followed by the first message, for a composer with at
    least one stage and a reply target (its own pending one, or else the
    message's): the publications are one directive per stage, in stage
    order, followed by the message, its [reply] cleared, to the first
    stage.  The directives name, in order, the second stage, the third,
    ..., and last the reply target: each stage replies to the next and the
    last stage replies to the target. *)
Theorem Sequential_started_then_handle (msg : GenericMessage)
    (first : string) (rest : list string) (reply_target : Address)
    (w : World) :
  _agent_types self = first :: rest ->
  or_else (reply_address (base self)) (g_reply msg) = Some reply_target ->
  exists directives,
    bind (started self) (fun _ => handle self msg) w
    = (Ok (set_reply msg None),
       published w
         (directives
          ++ [mkPublication (mkAddress first (id (address (base self))))
                            (EncGenericMessage (set_reply msg None)) false]))
    /\ map target directives
       = map (fun n => mkAddress n (id (address (base self))))
             (first :: rest)
    /\ map payload directives
       = map EncSetReplyAgent
           (map (fun n => mkAddress n (id (address (base self)))) rest
            ++ [reply_target]).
Proof.
  intros Htypes Hreply.
  exists (chain (id (address (base self))) (first :: rest)
          ++ [mkPublication
                (mkAddress (last (first :: rest) first)
                           (id (address (base self))))
                (EncSetReplyAgent reply_target) false]).
  split; [|split].
  - unfold bind at 1. rewrite started_chain.
    unfold handle. rewrite Htypes, Hreply.
    unfold bind, publish, ret, published. simpl outbox. simpl logged.
    simpl invoked. rewrite <- !app_assoc. reflexivity.
  - rewrite map_app. simpl map at 2. apply chain_targets.
  - rewrite map_app, chain_payloads, map_app, map_map. reflexivity.
Qed.

End SequentialStarted.


Lemma Sequential_started_then_handle_witness :
  let self :=
    Sequential.mkSequential (mkAgent (mkAddress "pipeline" "s1") None)
                            ["x"; "y"] in
  let caller := mkAddress "caller" "c9" in
  let msg := mkGenericMessage "payload" (Some caller) in
  exists directives,
    snd (bind (SequentialStart.started self)
              (fun _ => Sequential.handle self msg) world0)
    = published world0
        (directives
         ++ [mkPublication (mkAddress "x" "s1")
               (EncGenericMessage (mkGenericMessage "payload" None))
               false])%list
    /\ map target directives = [mkAddress "x" "s1"; mkAddress "y" "s1"]
    /\ map payload directives
       = [EncSetReplyAgent (mkAddress "y" "s1"); EncSetReplyAgent caller].
Proof.
  intros self caller msg.
  destruct (Sequential_started_then_handle self msg "x" ["y"] caller world0
              eq_refl eq_refl) as [ds [Hrun [Ht Hp]]].
  exists ds. rewrite Hrun. repeat split; assumption.
Defined.

(* ================================================================= *)
(** ** Further properties: nested delegation *)

Section NestedDelegation.
Local Open Scope list_scope.

Lemma stamped_idem (inner outer : string) (m : ChatMessage) :
  inner <> EmptyString ->
  stamped outer (stamped inner m) = stamped inner m.
Proof.
  intros Hne. unfold stamped at 2 3.
  destruct (String.eqb (sender m) EmptyString) eqn:E.
  - unfold stamped. simpl.
    apply String.eqb_neq in Hne. rewrite Hne. reflexivity.
  - unfold stamped. rewrite E. reflexivity.
Qed.

Lemma contents_stamped (t : string) (ms : list ChatMessage) :
  contents (map (stamped t) ms) = contents ms.
Proof.
  induction ms as [|m ms IH]; [reflexivity|]. simpl. rewrite IH.
  unfold stamped. destruct (String.eqb (sender m) EmptyString); reflexivity.
Qed.

(** X8. When the child is itself a delegate that relays the chunks [ms]
    of a grandchild under a non-empty type name [inner], the outer relay
    yields exactly what the inner relay yielded, and ends with the same
    accumulated content: a sender stamped further down is never
    overwritten on the way up. *)
Theorem Delegate_keeps_inner_sender
    (responder : Address -> Envelope -> list Envelope)
    (self : Delegate) (msg : ChatHistory) (inner : string)
    (ms : list ChatMessage) (w : World) :
  inner <> EmptyString ->
  responder (mkAddress (agent_type self) (id (address (host_agent self))))
            (EncChatHistory msg)
  = map EncChatMessage
        (yielded (relay inner (map EncChatMessage ms) EmptyString)) ->
  fst (Delegate_handle responder self msg w)
  = Ok (relay inner (map EncChatMessage ms) EmptyString).
Proof.
  intros Hne Hstream.
  unfold Delegate_handle, bind, publish_stream, ret.
  rewrite Hstream, (relay_decoded inner ms). cbn [yielded].
  rewrite relay_decoded. cbn [fst agent_type].
  rewrite contents_stamped, map_map.
  f_equal. f_equal. apply map_ext. intros m. apply stamped_idem, Hne.
Qed.

End NestedDelegation.

Lemma Delegate_keeps_inner_sender_witness :
  let host := mkAgent (mkAddress "host" "s1") None in
  let self := mkDelegate host "child" in
  let chunk (text who : string) :=
    mkChatMessage "assistant" text EmptyString who false in
  let ms := [chunk "a" EmptyString; chunk "b" "search"] in
  let history :=
    mkChatHistory [mkChatMessage "user" "hi" EmptyString EmptyString false]
                  None [] in
  let inner_run := relay "grandchild" (map EncChatMessage ms) EmptyString in
  option_map (map sender)
    (match fst (Delegate_handle
                  (fun _ _ => map EncChatMessage (yielded inner_run))
                  self history world0) with
     | Ok g => Some (yielded g)
     | Raised _ => None
     end)
  = Some ["grandchild"; "search"].
Proof.
  intros host self chunk ms history inner_run.
  rewrite (Delegate_keeps_inner_sender
             (fun _ _ => map EncChatMessage (yielded inner_run))
             self history "grandchild" ms world0);
    [reflexivity|discriminate|reflexivity].
Defined.

(* ================================================================= *)
(** ** Further properties: streaming chat *)

Section ChatStream.
Local Open Scope list_scope.

Lemma has_text_nonempty (c : option string) :
  has_text c = nonempty (text_of c).
Proof. destruct c; reflexivity. Qed.

Lemma joined_filter_nonempty (parts : list string) :
  joined (filter nonempty parts) = joined parts.
Proof.
  induction parts as [|p parts IH]; [reflexivity|]. simpl.
  destruct (nonempty p) eqn:E; simpl; rewrite IH; [reflexivity|].
  unfold nonempty in E. apply negb_false_iff, String.eqb_eq in E.
  rewrite E. reflexivity.
Qed.

Lemma stream_loop_complete (chunks : list StreamChunk) :
  Forall (fun c => chunk_choices c <> []) chunks ->
  ended (stream_loop chunks) = Ok tt
  /\ map content (emitted (stream_loop chunks))
     = filter nonempty (map first_text chunks)
  /\ Forall (fun m => role m = "assistant" /\ type m = EmptyString
                      /\ sender m = EmptyString /\ to_user m = false)
            (emitted (stream_loop chunks)).
Proof.
  induction 1 as [|c chunks Hc _ IH]; [simpl; auto|].
  destruct IH as [He [Hm Hr]].
  simpl. unfold first_text.
  destruct (chunk_choices c) as [|d ds]; [contradiction|].
  rewrite has_text_nonempty.
  destruct (nonempty (text_of (delta_content d))); simpl; auto.
  rewrite Hm. repeat split; auto.
Qed.

(** X9. When the client returns a stream in which every chunk has at
    least one choice, [chat_stream] runs to its end and yields one
    assistant message for each chunk whose first delta has non-empty
    content, in stream order and with that content; chunks with empty or
    missing content yield nothing, so no yielded message is empty and the
    yielded contents put together are the whole streamed text. *)
Theorem chat_stream_yields_nonempty_deltas (messages : list ChatMessage)
    (client : StreamingClient) (chunks : list StreamChunk) (w w' : World) :
  acompletion_stream client messages w = (Ok chunks, w') ->
  Forall (fun c => chunk_choices c <> []) chunks ->
  exists s,
    chat_stream messages client w = (Ok s, w')
    /\ ended s = Ok tt
    /\ map content (emitted s) = filter nonempty (map first_text chunks)
    /\ Forall (fun m => role m = "assistant" /\ content m <> EmptyString)
              (emitted s)
    /\ joined (map content (emitted s)) = joined (map first_text chunks).
Proof.
  intros Hrun Hall.
  destruct (stream_loop_complete chunks Hall) as [He [Hm Hr]].
  exists (stream_loop chunks).
  split; [unfold chat_stream, bind; rewrite Hrun; reflexivity|].
  split; [exact He|]. split; [exact Hm|]. split.
  - assert (Hc : Forall (fun s => s <> EmptyString)
                   (map content (emitted (stream_loop chunks)))).
    { rewrite Hm. apply Forall_forall. intros s Hs.
      apply filter_In in Hs. destruct Hs as [_ Hs].
      unfold nonempty in Hs. apply negb_true_iff, String.eqb_neq in Hs.
      exact Hs. }
    rewrite Forall_map in Hc.
    rewrite Forall_forall in *. intros m Hin.
    split; [apply (Hr m Hin)|apply (Hc m Hin)].
  - rewrite Hm. apply joined_filter_nonempty.
Qed.

(** X10. A streamed chunk with no choice stops [chat_stream] with an
    IndexError: what the chunks before it yielded has been yielded, and
    nothing of the chunks after it is. *)
Theorem chat_stream_stops_at_empty_chunk
    (before after : list StreamChunk) (bad : StreamChunk) :
  Forall (fun c => chunk_choices c <> []) before ->
  chunk_choices bad = [] ->
  stream_loop (before ++ bad :: after)
  = mkStreamed (emitted (stream_loop before))
               (Raised (IndexError "list index out of range")).
Proof.
  intros Hall Hbad. induction Hall as [|c before Hc _ IH].
  - simpl. rewrite Hbad. reflexivity.
  - simpl. destruct (chunk_choices c) as [|d ds]; [contradiction|].
    rewrite IH. destruct (has_text (delta_content d)); reflexivity.
Qed.

End ChatStream.

Lemma chat_stream_yields_nonempty_deltas_witness :
  let chunk (c : option string) := mkStreamChunk [mkDelta c] in
  let chunks := [chunk (Some "Hel"); chunk None; chunk (Some EmptyString);
                 chunk (Some "lo")] in
  let client := mkStreamingClient (fun _ => ret chunks) in
  exists s,
    chat_stream [] client world0 = (Ok s, world0)
    /\ map content (emitted s) = ["Hel"; "lo"]
    /\ joined (map content (emitted s)) = "Hello".
Proof.
  intros chunk chunks client.
  destruct (chat_stream_yields_nonempty_deltas [] client chunks
              world0 world0 eq_refl)
    as [s [Hrun [_ [Hm [_ Hj]]]]].
  - repeat constructor; discriminate.
  - exists s. split; [exact Hrun|]. split; [exact Hm|].
    rewrite Hj. reflexivity.
Defined.

Lemma chat_stream_stops_at_empty_chunk_witness :
  let chunk (c : option string) := mkStreamChunk [mkDelta c] in
  stream_loop [chunk (Some "Hel"); mkStreamChunk []; chunk (Some "lo")]
  = mkStreamed
      [mkChatMessage "assistant" "Hel" EmptyString EmptyString false]
      (Raised (IndexError "list index out of range")).
Proof.
  intros chunk.
  apply (chat_stream_stops_at_empty_chunk
           [chunk (Some "Hel")] [chunk (Some "lo")] (mkStreamChunk [])).
  - repeat constructor; discriminate.
  - reflexivity.
Defined.

(* ================================================================= *)
(** ** Further properties: the ChatAgent class *)

Section AgentName.
Import ChatAgentClass.

Lemma lower_char_not_upper (c : ascii) : is_upper (lower_char c) = false.
Proof.
  destruct c as [[] [] [] [] [] [] [] []]; reflexivity.
Qed.

Lemma lower_char_underscore (c : ascii) :
  is_underscore (lower_char c) = is_underscore c.
Proof.
  destruct c as [[] [] [] [] [] [] [] []]; reflexivity.
Qed.

Lemma lower_has_no_upper (s : string) :
  keep_chars is_upper (lower s) = EmptyString.
Proof.
  induction s as [|c s IH]; [reflexivity|]. simpl.
  rewrite lower_char_not_upper. exact IH.
Qed.

Lemma drop_underscores_cons (c : ascii) (s : string) :
  drop_underscores (String c s)
  = if is_underscore c then drop_underscores s
    else String c (drop_underscores s).
Proof.
  unfold drop_underscores. simpl. destruct (is_underscore c); reflexivity.
Qed.

Lemma snake_sub_letters (n : string) :
  drop_underscores (lower (snake_sub n)) = drop_underscores (lower n)
  /\ forall a,
       drop_underscores (lower (snake_sub (String a n)))
       = drop_underscores (lower (String a n)).
Proof.
  induction n as [|b r [IHr IHbr]].
  - split; reflexivity.
  - split; [apply IHbr|]. intros a.
    change (snake_sub (String a (String b r)))
      with (if is_lower_or_digit a && is_upper b
            then String a (String "_" (String b (snake_sub r)))
            else String a (snake_sub (String b r))).
    destruct (is_lower_or_digit a && is_upper b).
    + cbn [lower]. repeat rewrite drop_underscores_cons.
      change (is_underscore (lower_char "_")) with true. cbn iota.
      rewrite IHr. reflexivity.
    + change (lower (String a (snake_sub (String b r))))
        with (String (lower_char a) (lower (snake_sub (String b r)))).
      change (lower (String a (String b r)))
        with (String (lower_char a) (lower (String b r))).
      rewrite !drop_underscores_cons, (IHbr b). reflexivity.
Qed.

(** X11. The [name] property: a non-empty configured name is returned as
    it is; otherwise the name is derived from the class name, contains no
    ASCII capital letter, and differs from the lowercased class name only
    by underscores. *)
Theorem ChatAgent_name_snake_case (self : ChatAgent) (class_name : string) :
  (_name self <> EmptyString -> name self class_name = _name self)
  /\ (_name self = EmptyString ->
      name self class_name = lower (snake_sub class_name)
      /\ keep_chars is_upper (name self class_name) = EmptyString
      /\ drop_underscores (name self class_name)
         = drop_underscores (lower class_name)).
Proof.
  unfold name. simpl. split; intros H.
  - apply String.eqb_neq in H. rewrite H. reflexivity.
  - rewrite H. simpl. split; [reflexivity|].
    split; [apply lower_has_no_upper|apply snake_sub_letters].
Qed.

End AgentName.

Lemma ChatAgent_name_snake_case_witness :
  let swarm := ChatAgentClass.mkSwarm (fun _ _ _ _ => ret []) in
  let blank (n : string) :=
    ChatAgentClass.mkChatAgent
      (mkAgent (mkAddress "a" "s1") None) n EmptyString
      (Demo.constant_client "true") swarm
      (ChatAgentClass.mkSwarmAgent n "demo" EmptyString [])
      (mkChatHistory [] None []) in
  ChatAgentClass.name (blank "helper") "ChatAgent" = "helper"
  /\ ChatAgentClass.name (blank EmptyString) "ChatAgent" = "chat_agent"
  /\ ChatAgentClass.name (blank EmptyString) "HTTPServer2Go"
     = "httpserver2_go".
Proof.
  intros swarm blank.
  destruct (ChatAgent_name_snake_case (blank "helper") "ChatAgent")
    as [Hset _].
  destruct (ChatAgent_name_snake_case (blank EmptyString) "ChatAgent")
    as [_ Hsnake].
  destruct (ChatAgent_name_snake_case (blank EmptyString) "HTTPServer2Go")
    as [_ Hsnake'].
  split; [apply Hset; discriminate|].
  split.
  - rewrite (proj1 (Hsnake eq_refl)). reflexivity.
  - rewrite (proj1 (Hsnake' eq_refl)). reflexivity.
Defined.

Section AgentTools.
Import ChatAgentClass.
Local Open Scope list_scope.

Lemma collect_fold (methods : list (string * Method)) :
  forall acc,
    fold_left
      (fun acc (entry : string * Method) =>
         if is_tool (snd entry) then acc ++ [fn (snd entry)] else acc)
      methods acc
    = acc ++ map (fun e => fn (snd e))
                 (filter (fun e => is_tool (snd e)) methods).
Proof.
  induction methods as [|e methods IH]; intros acc; simpl.
  - rewrite app_nil_r. reflexivity.
  - rewrite IH. destruct (is_tool (snd e)); simpl; [|reflexivity].
    rewrite <- app_assoc. reflexivity.
Qed.

(** X12. The functions a ChatAgent registers are the tools it was given,
    in their order, followed by its member methods marked as tools, in
    member order, each one error-wrapped: a call to a registered function
    never raises an exception that derives from Exception (such failures
    come back as "Error: ..." strings), and it returns whenever the tool
    behind it raises nothing else. *)
Theorem ChatAgent_functions_never_raise (tools : option (list Tool))
    (methods : list (string * Method)) :
  swarm_functions tools methods
  = map wrap_error
      (match tools with Some given => given | None => [] end
       ++ map (fun e => fn (snd e))
              (filter (fun e => is_tool (snd e)) methods))
  /\ forall f,
       In f (swarm_functions tools methods) ->
       forall args kwargs w,
         match call f args kwargs w with
         | (Ok _, _) => True
         | (Raised exc, _) => is_exception exc = false
         end.
Proof.
  split.
  - unfold swarm_functions, collect_tools. rewrite collect_fold.
    destruct tools as [[|t ts]|]; reflexivity.
  - intros f Hin args kwargs w. unfold swarm_functions in Hin.
    apply in_map_iff in Hin. destruct Hin as [t [<- _]].
    rewrite wrap_error_unfold.
    destruct (fill_defaults (signature t) kwargs) as [kwargs'|exc] eqn:Hf.
    + destruct (call t args kwargs' w) as [[r|exc] w']; [exact I|].
      destruct (is_exception exc) eqn:E; [exact I|exact E].
    + rewrite (fill_defaults_raises_exception _ _ _ Hf). exact I.
Qed.

End AgentTools.

Lemma ChatAgent_functions_never_raise_witness :
  let boom := Demo.raising_tool "boom" [] (ValueError "bad") in
  let echo := Demo.recording_tool "echo" [] (RVal (PyStr "hi")) in
  let plain := Demo.recording_tool "plain" [] (RVal PyNone) in
  let fs :=
    ChatAgentClass.swarm_functions (Some [boom])
      [("echo", ChatAgentClass.tool (ChatAgentClass.mkMethod echo false));
       ("plain", ChatAgentClass.mkMethod plain false)] in
  fs = [wrap_error boom; wrap_error echo]
  /\ forall f, In f fs ->
       match call f [] [] world0 with
       | (Ok _, _) => True
       | (Raised exc, _) => is_exception exc = false
       end.
Proof.
  intros boom echo plain fs.
  destruct (ChatAgent_functions_never_raise (Some [boom])
              [("echo", ChatAgentClass.tool
                          (ChatAgentClass.mkMethod echo false));
               ("plain", ChatAgentClass.mkMethod plain false)])
    as [Hlist Hsafe].
  split; [exact Hlist|].
  intros f Hin. apply (Hsafe f Hin).
Defined.

Section AgentTurn.
Import ChatAgentClass.
Local Open Scope list_scope.

Variable self : ChatAgent.

Lemma kept_filter (response : list SwarmItem) :
  map ItemMessage (kept response) = filter keeps response.
Proof.
  induction response as [|[m|k] rest IH]; simpl; auto.
  destruct (has_content m); simpl; rewrite IH; reflexivity.
Qed.

Lemma kept_has_content (response : list SwarmItem) :
  Forall (fun m => content m <> EmptyString) (kept response).
Proof.
  induction response as [|[m|k] rest IH]; simpl; auto.
  destruct (has_content m) eqn:E; auto.
  constructor; [|exact IH].
  unfold has_content in E. apply negb_true_iff, String.eqb_neq in E.
  exact E.
Qed.

Lemma gating_refresh_shape (client : ModelClient)
    (history h1 : ChatHistory) (w w1 : World) :
  update_user_confirmed client history w = (Ok h1, w1) ->
  exists h2,
    update_user_submitted h1 w1 = (Ok h2, w1)
    /\ messages h2 = messages history
    /\ dict_lookup "user_submitted" (extensions h2)
       = Some (PyBool (_is_submit_message history))
    /\ dict_has "user_confirmed" (extensions h2) = true
    /\ truthy (PyDict (extensions h2)) = true.
Proof.
  intros H. destruct (update_user_confirmed_shape _ _ _ _ _ H) as [v ->].
  eexists. split; [reflexivity|]. simpl.
  unfold set_user_submitted, set_user_confirmed, _is_submit_message,
    dict_has. simpl.
  repeat split.
  - apply dict_lookup_set_same.
  - rewrite dict_lookup_set_other by discriminate.
    rewrite dict_lookup_set_same. reflexivity.
  - destruct (dict_set "user_submitted" _ _) eqn:E; [|reflexivity].
    pose proof (dict_lookup_set_same "user_submitted"
                  (PyBool (_is_submit_message history))
                  (dict_set "user_confirmed" v (extensions history))) as L.
    unfold _is_submit_message in L. simpl in L.
    rewrite E in L. discriminate.
Qed.

Lemma handle_history_inv (msg : ChatHistory)
    (response_format : option pyval) (w w' : World) (t : Turn) :
  _handle_history self msg response_format w = (Ok t, w') ->
  messages (turn_msg t) = messages msg
  /\ _history (turn_self t) = turn_msg t
  /\ base (turn_self t) = base self
  /\ dict_lookup "user_submitted" (extensions (turn_msg t))
     = Some (PyBool (_is_submit_message msg))
  /\ dict_has "user_confirmed" (extensions (turn_msg t)) = true
  /\ truthy (PyDict (extensions (turn_msg t))) = true
  /\ exists w1 response,
       run_and_stream (_swarm_client self) (_swarm_agent self)
                      (messages msg) response_format
                      (extensions (turn_msg t)) w1
       = (Ok response, w')
       /\ turn_yielded t = kept response.
Proof.
  unfold _handle_history, bind. intros H.
  destruct (update_user_confirmed (_client self) msg w)
    as [[h1|e] w1] eqn:E1; [|discriminate].
  destruct (gating_refresh_shape _ _ _ _ _ E1)
    as [h2 [E2 [Hm [Hs [Hc Hne]]]]].
  rewrite E2 in H. simpl _swarm_client in H. simpl _swarm_agent in H.
  destruct (run_and_stream _ _ _ _ _ w1) as [[response|e] w2] eqn:E3;
    [|discriminate].
  injection H as <- <-. simpl.
  repeat split; auto.
  exists w1, response. rewrite <- Hm. split; [exact E3|reflexivity].
Qed.

(** X13. A single incoming message is handled without consulting the
    completion client for confirmation: the swarm run receives the one
    message and a context in which [user_confirmed] is false and
    [user_submitted] tells whether the message is a user submission; the
    handler yields the chat messages of the run that have content, and
    raises what the run raises. *)
Theorem handle_message_context (msg : ChatMessage) (w : World) :
  let ctx :=
    [("user_confirmed", PyBool false);
     ("user_submitted",
      PyBool (String.eqb (role msg) "user"
              && String.eqb (type msg) "submit"))] in
  let history := mkChatHistory [msg] None ctx in
  handle_message self msg w
  = match run_and_stream (_swarm_client self) (_swarm_agent self)
                         [msg] None ctx w with
    | (Ok response, w') =>
        (Ok (mkTurn (set_history self history) history (kept response)), w')
    | (Raised e, w') => (Raised e, w')
    end.
Proof.
  unfold handle_message, _handle_history, bind. simpl.
  destruct (run_and_stream _ _ _ _ _ w) as [[response|e] w']; reflexivity.
Qed.

(** X14. A turn that returns: the messages are the incoming ones; the
    agent's current history is the refreshed history; its extensions hold
    both flags, so they are a non-empty (true) context; the swarm ran on
    the incoming messages with exactly these extensions as context
    variables; and what was yielded is, in order, the chat messages of the
    run that have content. *)
Theorem handle_history_turn (msg : ChatHistory)
    (response_format : option pyval) (w w' : World) (t : Turn) :
  _handle_history self msg response_format w = (Ok t, w') ->
  messages (turn_msg t) = messages msg
  /\ _history (turn_self t) = turn_msg t
  /\ dict_lookup "user_submitted" (extensions (turn_msg t))
     = Some (PyBool (_is_submit_message msg))
  /\ dict_has "user_confirmed" (extensions (turn_msg t)) = true
  /\ truthy (PyDict (extensions (turn_msg t))) = true
  /\ Forall (fun m => content m <> EmptyString) (turn_yielded t)
  /\ exists w1 response,
       run_and_stream (_swarm_client self) (_swarm_agent self)
                      (messages msg) response_format
                      (extensions (turn_msg t)) w1
       = (Ok response, w')
       /\ map ItemMessage (turn_yielded t) = filter keeps response.
Proof.
  intros H.
  destruct (handle_history_inv msg response_format w w' t H)
    as [Hm [Hh [_ [Hs [Hc [Hne [w1 [response [Hrun Hy]]]]]]]]].
  repeat split; auto.
  - rewrite Hy. apply kept_has_content.
  - exists w1, response. split; [exact Hrun|].
    rewrite Hy. apply kept_filter.
Qed.

(** X15. A delegation made after a turn forwards the refreshed history,
    flags included, to the child type on the agent's own instance id, as a
    streaming request. *)
Theorem agent_forwards_refreshed_history (msg : ChatHistory)
    (response_format : option pyval) (w w' : World) (t : Turn)
    (responder : Address -> Envelope -> list Envelope)
    (child_type : string) (w2 : World) :
  _handle_history self msg response_format w = (Ok t, w') ->
  snd (agent responder (turn_self t) child_type w2)
  = published w2
      [mkPublication (mkAddress child_type (id (address (base self))))
                     (EncChatHistory (turn_msg t)) true]
  /\ dict_lookup "user_submitted" (extensions (turn_msg t))
     = Some (PyBool (_is_submit_message msg))
  /\ dict_has "user_confirmed" (extensions (turn_msg t)) = true.
Proof.
  intros H.
  destruct (handle_history_inv msg response_format w w' t H)
    as [_ [Hh [Hb [Hs [Hc _]]]]].
  split; [|split; assumption].
  unfold agent, Delegate_handle, bind, publish_stream, ret, published.
  cbn [snd host_agent agent_type]. rewrite Hh, Hb. reflexivity.
Qed.

End AgentTurn.

Lemma handle_history_turn_witness :
  let said (text : string) :=
    mkChatMessage "assistant" text EmptyString EmptyString false in
  let swarm :=
    ChatAgentClass.mkSwarm
      (fun _ _ _ _ =>
         ret [ChatAgentClass.ItemMessage (said "Hel");
              ChatAgentClass.ItemOther "delim";
              ChatAgentClass.ItemMessage (said EmptyString);
              ChatAgentClass.ItemMessage (said "lo")]) in
  let self :=
    ChatAgentClass.mkChatAgent
      (mkAgent (mkAddress "helper" "s1") None) "helper" EmptyString
      (Demo.constant_client "true") swarm
      (ChatAgentClass.mkSwarmAgent "helper" "demo" EmptyString [])
      (mkChatHistory [] None []) in
  let msg :=
    mkChatHistory
      [mkChatMessage "user" "{}" "submit" EmptyString false] None [] in
  exists t,
    ChatAgentClass._handle_history self msg None world0 = (Ok t, world0)
    /\ ChatAgentClass.turn_yielded t = [said "Hel"; said "lo"]
    /\ extensions (ChatAgentClass.turn_msg t)
       = [("user_confirmed", PyBool false); ("user_submitted", PyBool true)]
    /\ truthy (PyDict (extensions (ChatAgentClass.turn_msg t))) = true.
Proof.
  intros said swarm self msg.
  eexists. split; [reflexivity|].
  split; [reflexivity|]. split; [reflexivity|].
  refine (proj1 (proj2 (proj2 (proj2 (proj2
            (handle_history_turn self msg None world0 world0 _ eq_refl)))))).
Defined.

Lemma agent_forwards_refreshed_history_witness :
  let swarm := ChatAgentClass.mkSwarm (fun _ _ _ _ => ret []) in
  let self :=
    ChatAgentClass.mkChatAgent
      (mkAgent (mkAddress "helper" "s1") None) "helper" EmptyString
      (Demo.constant_client "true") swarm
      (ChatAgentClass.mkSwarmAgent "helper" "demo" EmptyString [])
      (mkChatHistory [] None []) in
  let msg :=
    mkChatHistory
      [mkChatMessage "user" "{}" "submit" EmptyString false] None [] in
  let refreshed :=
    mkChatHistory
      [mkChatMessage "user" "{}" "submit" EmptyString false] None
      [("user_confirmed", PyBool false); ("user_submitted", PyBool true)] in
  outbox
    (snd (ChatAgentClass.agent (fun _ _ => [])
            (ChatAgentClass.set_history self refreshed) "search" world0))
  = [mkPublication (mkAddress "search" "s1") (EncChatHistory refreshed) true].
Proof.
  intros swarm self msg refreshed.
  destruct (agent_forwards_refreshed_history self msg None world0 world0
              (ChatAgentClass.mkTurn
                 (ChatAgentClass.set_history self refreshed) refreshed [])
              (fun _ _ => []) "search" world0 eq_refl)
    as [Hpub _].
  simpl ChatAgentClass.turn_self in Hpub. rewrite Hpub. reflexivity.
Defined.

(* ================================================================= *)
(** ** Further properties: the classifier's reading of the reply *)

Section PaddedReply.

Lemma lower_char_space (c : ascii) : isspace (lower_char c) = isspace c.
Proof.
  destruct c as [[] [] [] [] [] [] [] []]; reflexivity.
Qed.

Lemma lstrip_spaces (pre s : string) :
  all_space pre = true -> lstrip (pre ++ s) = lstrip s.
Proof.
  induction pre as [|c pre IH]; intros H; [reflexivity|].
  simpl in H. apply andb_true_iff in H. destruct H as [Hc Hpre].
  simpl. rewrite Hc. apply IH, Hpre.
Qed.

Lemma list_ascii_app (a b : string) :
  list_ascii_of_string (a ++ b)
  = (list_ascii_of_string a ++ list_ascii_of_string b)%list.
Proof.
  induction a as [|c a IH]; [reflexivity|]. simpl. rewrite IH. reflexivity.
Qed.

Lemma string_of_list_app (l1 l2 : list ascii) :
  string_of_list_ascii (l1 ++ l2)%list
  = string_of_list_ascii l1 ++ string_of_list_ascii l2.
Proof.
  induction l1 as [|c l1 IH]; [reflexivity|]. simpl. rewrite IH.
  reflexivity.
Qed.

Lemma reverse_app (a b : string) :
  reverse (a ++ b) = reverse b ++ reverse a.
Proof.
  unfold reverse.
  rewrite list_ascii_app, rev_app_distr, string_of_list_app. reflexivity.
Qed.

Lemma reverse_involutive (s : string) : reverse (reverse s) = s.
Proof.
  unfold reverse.
  rewrite list_ascii_of_string_of_list_ascii, rev_involutive,
    string_of_list_ascii_of_string.
  reflexivity.
Qed.

Lemma all_space_app (a b : string) :
  all_space (a ++ b) = all_space a && all_space b.
Proof.
  induction a as [|c a IH]; [reflexivity|]. simpl. rewrite IH.
  apply andb_assoc.
Qed.

Lemma all_space_reverse (s : string) : all_space (reverse s) = all_space s.
Proof.
  induction s as [|c s IH]; [reflexivity|].
  change (String c s) with (String c EmptyString ++ s).
  rewrite reverse_app, !all_space_app, IH. apply andb_comm.
Qed.

Lemma strip_padded_true (pre core post : string) :
  all_space pre = true ->
  all_space post = true ->
  lower core = "true" ->
  strip (pre ++ core ++ post) = core.
Proof.
  intros Hpre Hpost Hcore.
  destruct core as [|c1 [|c2 [|c3 [|c4 [|c5 r]]]]]; try discriminate.
  simpl in Hcore. injection Hcore as H1 H2 H3 H4.
  assert (S1 : isspace c1 = false)
    by (rewrite <- lower_char_space, H1; reflexivity).
  assert (S4 : isspace c4 = false)
    by (rewrite <- lower_char_space, H4; reflexivity).
  set (core := String c1 (String c2 (String c3 (String c4 EmptyString)))).
  assert (Hl : lstrip (core ++ post) = core ++ post)
    by (unfold core; simpl; rewrite S1; reflexivity).
  assert (Hr : lstrip (reverse core) = reverse core)
    by (unfold core; cbn; rewrite S4; reflexivity).
  unfold strip. rewrite (lstrip_spaces pre _ Hpre), Hl.
  unfold rstrip.
  rewrite reverse_app, lstrip_spaces
    by (rewrite all_space_reverse; exact Hpost).
  rewrite Hr. apply reverse_involutive.
Qed.

(** X16. For an input outside the fast paths, a completion whose first
    choice reads "true" in any letter case, with any white space around it,
    makes the classifier answer true; further choices are ignored. *)
Theorem is_user_confirmed_accepts_padded_true (content : string)
    (client : ModelClient) (reply_role pre core post : string)
    (others : list ChoiceMessage) (w w' : World) :
  ~ In (lower content) ["yes"; "ok"; "1"; "no"; "do not"; "0"] ->
  acompletion client
    [mkChatMessage "user" (sentiment_prompt content)
                   EmptyString EmptyString false] w
  = (Ok (mkCompletion
           (mkChoiceMessage reply_role (pre ++ core ++ post) :: others)),
     w') ->
  all_space pre = true ->
  all_space post = true ->
  lower core = "true" ->
  is_user_confirmed content client w = (Ok true, w').
Proof.
  intros Hslow Hrun Hpre Hpost Hcore.
  assert (Hyes : str_in (lower content) ["yes"; "ok"; "1"] = false).
  { apply str_in_not_In. intros Hy. apply Hslow. simpl in *. tauto. }
  assert (Hno : str_in (lower content) ["no"; "do not"; "0"] = false).
  { apply str_in_not_In. intros Hy. apply Hslow. simpl in *. tauto. }
  unfold is_user_confirmed. rewrite Hyes, Hno.
  unfold bind, chat, bind. rewrite Hrun. cbn [choices cm_content ret].
  cbn [Messages.content].
  rewrite (strip_padded_true pre core post Hpre Hpost Hcore), Hcore.
  reflexivity.
Qed.

End PaddedReply.

Lemma is_user_confirmed_accepts_padded_true_witness :
  is_user_confirmed "sure, go ahead"
    (Demo.constant_client (" " ++ nl ++ "TrUe" ++ nl)) world0
  = (Ok true, world0).
Proof.
  apply (is_user_confirmed_accepts_padded_true "sure, go ahead"
           (Demo.constant_client (" " ++ nl ++ "TrUe" ++ nl))
           "assistant" (" " ++ nl) "TrUe" nl [] world0 world0);
    try reflexivity.
  simpl. intros H.
  repeat match goal with
         | H : _ \/ _ |- _ => destruct H
         | H : False |- _ => destruct H
         end; discriminate.
Defined.
